(** * The live notification channel hook [useInsydSocket]

    A shallow embedding of the React hook that owns the WebSocket of an
    authenticated session: its state ([status], [unread]), its refs
    ([wsRef], [heartbeatRef], [retryRef], [retriesRef], [isConnectingRef])
    and the callbacks it registers on every socket it creates.

    The hook runs on one event loop.  Each callback invocation is one step
    of a transition system whose state is the hook together with the part
    of the platform the callbacks touch: the sockets created so far, the
    interval and timeout timers, the notification permission, the console.

    JavaScript numbers are modelled by [Z]: the counters of the hook stay
    far below 2^53, where the arithmetic of doubles is exact. *)

From stdpp Require Import base list strings numbers pretty.

Local Open Scope Z_scope.
Set Warnings "-register-all".

(** ** Data *)

(** [WSStatus], the exported union of string literals. *)
Inductive WSStatus := connecting | connected | disconnected | error.

(** [WebSocket.readyState]. *)
Inductive ReadyState := CONNECTING | OPEN | CLOSING | CLOSED.

(** [Notification.permission]. *)
Inductive Permission := default | granted | denied.

#[global] Instance WSStatus_eq_dec : EqDecision WSStatus.
Proof. solve_decision. Defined.
#[global] Instance ReadyState_eq_dec : EqDecision ReadyState.
Proof. solve_decision. Defined.
#[global] Instance Permission_eq_dec : EqDecision Permission.
Proof. solve_decision. Defined.

(** The [User] of the auth context; the hook reads [userId] only. *)
Record User := mkUser { userId : string }.

(** What [useAuth()] hands to one render, and so what the [connect] of that
    render and the handlers it installs close over. *)
Record Auth := mkAuth { isAuthenticated : bool; user : option User }.

(** [!isAuthenticated || !user?.userId] is false: the empty string is
    falsy. *)
Definition has_identity (a : Auth) : bool :=
  isAuthenticated a &&
  match user a with
  | Some u => negb (String.eqb (userId u) "")
  | None => false
  end.

(** [isAuthenticated && user], the test of the close handler: an object is
    truthy whatever its fields. *)
Definition still_authenticated (a : Auth) : bool :=
  isAuthenticated a &&
  match user a with Some _ => true | None => false end.

(** Values produced by [JSON.parse]. Numbers are kept as integers; a
    fractional number behaves as a non-zero one in everything below. An
    object lists its own properties, each name once. *)
Inductive JSValue :=
| JNull
| JBool (b : bool)
| JNum (n : Z)
| JStr (s : string)
| JArr (items : list JSValue)
| JObj (fields : list (string * JSValue)).

Fixpoint assoc (k : string) (l : list (string * JSValue)) : option JSValue :=
  match l with
  | [] => None
  | (k', v) :: l' => if String.eqb k k' then Some v else assoc k l'
  end.

(** [v.k] for a [v] that is not [null]; [None] is [undefined]. Strings,
    numbers, booleans and arrays have no property of the names read here. *)
Definition prop (v : JSValue) (k : string) : option JSValue :=
  match v with
  | JObj fields => assoc k fields
  | _ => None
  end.

(** Truthiness of a possibly undefined value. *)
Definition truthy (v : option JSValue) : bool :=
  match v with
  | None => false
  | Some JNull => false
  | Some (JBool b) => b
  | Some (JNum n) => negb (n =? 0)
  | Some (JStr s) => negb (String.eqb s "")
  | Some (JArr _) => true
  | Some (JObj _) => true
  end.

(** [v === lit] for a string literal. *)
Definition is_string (v : option JSValue) (lit : string) : bool :=
  match v with
  | Some (JStr s) => String.eqb s lit
  | _ => false
  end.

(** [a || b] where [b] is defined. *)
Definition or_else (a : option JSValue) (b : JSValue) : JSValue :=
  match a with
  | Some v => if truthy a then v else b
  | None => b
  end.

(** Frames written to a socket: the heartbeat's
    [{ action: 'ping', timestamp }] and the payloads of [send]. *)
Inductive Frame :=
| Ping (timestamp : Z)
| Payload (payload : JSValue).

(** Arguments of one [new Notification(title, { body, tag, icon })]. *)
Record Alert := mkAlert {
  alert_title : JSValue;
  alert_body : JSValue;
  alert_tag : JSValue;
  alert_icon : string
}.

(** The console calls of the hook, without their interpolated data. *)
Inductive Log :=
| LogCleanup | LogSent | WarnNotOpen | LogHeartbeat
| LogNotAuthenticated | LogAlreadyConnecting | LogAlreadyConnected
| LogConnecting | LogConnected
| LogRaw | LogParsed | LogNotification | LogPong | LogUnknownType
| ErrParse | ErrRawData
| LogClosed | LogReconnecting (delay attempt : Z)
| ErrSocket | ErrCreate
| LogAuthConnecting | LogAuthCleanup | LogPermission | LogTabVisible
| LogResetUnread.

(** A [WebSocket] object. [ws_closure] is the [Auth] its handlers closed
    over; [ws_close_fired] records that its close event was dispatched. *)
Record WebSocket := mkWebSocket {
  ws_url : string;
  readyState : ReadyState;
  ws_closure : Auth;
  ws_close_fired : bool
}.

(** A [setInterval] timer of [startHeartbeat]; its callback closes over the
    socket [iv_ws]. *)
Record Interval := mkInterval { iv_ws : nat; iv_active : bool }.

Inductive TimeoutState := Pending | Fired | Cleared.

#[global] Instance TimeoutState_eq_dec : EqDecision TimeoutState.
Proof. solve_decision. Defined.

(** A [setTimeout] timer of the close handler; its callback calls the
    [connect] that closed over [to_closure]. *)
Record Timeout := mkTimeout {
  to_delay : Z;
  to_closure : Auth;
  to_state : TimeoutState
}.

(** State and refs of one hook instance. Sockets and timers are named by
    their position in the platform's lists; a ref holding [None] is
    [null]. Timer handles are truthy, as the ids of a browser are
    positive. *)
Record Hook := mkHook {
  status : WSStatus;
  unread : Z;
  wsRef : option nat;
  heartbeatRef : option nat;
  retryRef : option nat;
  retriesRef : Z;
  isConnectingRef : bool
}.

Record Platform := mkPlatform {
  sockets : list WebSocket;
  intervals : list Interval;
  timeouts : list Timeout;
  permission : Permission;
  notification_throws : bool;
  NEXT_PUBLIC_WEBSOCKET_URL : option string;
  alerts : list Alert;
  sent : list (nat * Frame);
  console : list Log
}.

Record World := mkWorld { hook : Hook; platform : Platform }.

(** ** Assignments *)

Definition setStatus (v : WSStatus) (w : World) : World :=
  let h := hook w in
  mkWorld (mkHook v (unread h) (wsRef h) (heartbeatRef h) (retryRef h)
                  (retriesRef h) (isConnectingRef h)) (platform w).

Definition setUnread (f : Z -> Z) (w : World) : World :=
  let h := hook w in
  mkWorld (mkHook (status h) (f (unread h)) (wsRef h) (heartbeatRef h)
                  (retryRef h) (retriesRef h) (isConnectingRef h)) (platform w).

Definition set_wsRef (v : option nat) (w : World) : World :=
  let h := hook w in
  mkWorld (mkHook (status h) (unread h) v (heartbeatRef h) (retryRef h)
                  (retriesRef h) (isConnectingRef h)) (platform w).

Definition set_heartbeatRef (v : option nat) (w : World) : World :=
  let h := hook w in
  mkWorld (mkHook (status h) (unread h) (wsRef h) v (retryRef h)
                  (retriesRef h) (isConnectingRef h)) (platform w).

Definition set_retryRef (v : option nat) (w : World) : World :=
  let h := hook w in
  mkWorld (mkHook (status h) (unread h) (wsRef h) (heartbeatRef h) v
                  (retriesRef h) (isConnectingRef h)) (platform w).

Definition set_retriesRef (v : Z) (w : World) : World :=
  let h := hook w in
  mkWorld (mkHook (status h) (unread h) (wsRef h) (heartbeatRef h)
                  (retryRef h) v (isConnectingRef h)) (platform w).

Definition set_isConnectingRef (v : bool) (w : World) : World :=
  let h := hook w in
  mkWorld (mkHook (status h) (unread h) (wsRef h) (heartbeatRef h)
                  (retryRef h) (retriesRef h) v) (platform w).

Definition set_sockets (v : list WebSocket) (w : World) : World :=
  let p := platform w in
  mkWorld (hook w)
    (mkPlatform v (intervals p) (timeouts p) (permission p)
       (notification_throws p) (NEXT_PUBLIC_WEBSOCKET_URL p) (alerts p)
       (sent p) (console p)).

Definition set_intervals (v : list Interval) (w : World) : World :=
  let p := platform w in
  mkWorld (hook w)
    (mkPlatform (sockets p) v (timeouts p) (permission p)
       (notification_throws p) (NEXT_PUBLIC_WEBSOCKET_URL p) (alerts p)
       (sent p) (console p)).

Definition set_timeouts (v : list Timeout) (w : World) : World :=
  let p := platform w in
  mkWorld (hook w)
    (mkPlatform (sockets p) (intervals p) v (permission p)
       (notification_throws p) (NEXT_PUBLIC_WEBSOCKET_URL p) (alerts p)
       (sent p) (console p)).

Definition set_permission (v : Permission) (w : World) : World :=
  let p := platform w in
  mkWorld (hook w)
    (mkPlatform (sockets p) (intervals p) (timeouts p) v
       (notification_throws p) (NEXT_PUBLIC_WEBSOCKET_URL p) (alerts p)
       (sent p) (console p)).

Definition raise_alert (a : Alert) (w : World) : World :=
  let p := platform w in
  mkWorld (hook w)
    (mkPlatform (sockets p) (intervals p) (timeouts p) (permission p)
       (notification_throws p) (NEXT_PUBLIC_WEBSOCKET_URL p)
       (alerts p ++ [a]) (sent p) (console p)).

Definition ws_send (s : nat) (f : Frame) (w : World) : World :=
  let p := platform w in
  mkWorld (hook w)
    (mkPlatform (sockets p) (intervals p) (timeouts p) (permission p)
       (notification_throws p) (NEXT_PUBLIC_WEBSOCKET_URL p) (alerts p)
       (sent p ++ [(s, f)]) (console p)).

Definition log (l : Log) (w : World) : World :=
  let p := platform w in
  mkWorld (hook w)
    (mkPlatform (sockets p) (intervals p) (timeouts p) (permission p)
       (notification_throws p) (NEXT_PUBLIC_WEBSOCKET_URL p) (alerts p)
       (sent p) (console p ++ [l])).

(** ** Platform calls *)

Definition ready_state_of (s : nat) (w : World) : option ReadyState :=
  readyState <$> sockets (platform w) !! s.

Definition is_open (s : nat) (w : World) : bool :=
  bool_decide (ready_state_of s w = Some OPEN).

Definition set_ready (r : ReadyState) (ws : WebSocket) : WebSocket :=
  mkWebSocket (ws_url ws) r (ws_closure ws) (ws_close_fired ws).

(** [ws.close(1000, 'client cleanup')]: nothing on a socket that is closing
    or closed, otherwise the socket starts closing. *)
Definition ws_close (s : nat) (w : World) : World :=
  match sockets (platform w) !! s with
  | Some ws =>
      match readyState ws with
      | CONNECTING | OPEN =>
          set_sockets (<[s := set_ready CLOSING ws]> (sockets (platform w))) w
      | CLOSING | CLOSED => w
      end
  | None => w
  end.

Definition clearInterval (i : nat) (w : World) : World :=
  match intervals (platform w) !! i with
  | Some iv =>
      set_intervals (<[i := mkInterval (iv_ws iv) false]> (intervals (platform w))) w
  | None => w
  end.

(** [clearTimeout] of a timer that already ran does nothing. *)
Definition clearTimeout (t : nat) (w : World) : World :=
  match timeouts (platform w) !! t with
  | Some tm =>
      match to_state tm with
      | Pending =>
          set_timeouts
            (<[t := mkTimeout (to_delay tm) (to_closure tm) Cleared]>
               (timeouts (platform w))) w
      | _ => w
      end
  | None => w
  end.

(** ** The hook *)

Definition WS_URL (w : World) : string :=
  match NEXT_PUBLIC_WEBSOCKET_URL (platform w) with
  | Some u => u
  | None => "wss://m75xolz360.execute-api.eu-north-1.amazonaws.com/prod"
  end.

Definition cleanup (w : World) : World :=
  let w := log LogCleanup w in
  let w :=
    match heartbeatRef (hook w) with
    | Some h => set_heartbeatRef None (clearInterval h w)
    | None => w
    end in
  let w :=
    match retryRef (hook w) with
    | Some t => set_retryRef None (clearTimeout t w)
    | None => w
    end in
  let w :=
    match wsRef (hook w) with
    | Some s => set_wsRef None (ws_close s w)
    | None => w
    end in
  let w := set_isConnectingRef false w in
  setStatus disconnected w.

Definition send (payload : JSValue) (w : World) : World :=
  match wsRef (hook w) with
  | Some s =>
      if is_open s w then log LogSent (ws_send s (Payload payload) w)
      else log WarnNotOpen w
  | None => log WarnNotOpen w
  end.

Definition startHeartbeat (ws : nat) (w : World) : World :=
  let w :=
    match heartbeatRef (hook w) with
    | Some h => clearInterval h w
    | None => w
    end in
  let id := length (intervals (platform w)) in
  set_heartbeatRef (Some id)
    (set_intervals (intervals (platform w) ++ [mkInterval ws true]) w).

(** The callback of the heartbeat interval, every 15000 ms. *)
Definition heartbeat_tick (ws : nat) (now : Z) (w : World) : World :=
  if is_open ws w then ws_send ws (Ping now) (log LogHeartbeat w) else w.

(** [ws.onopen]. *)
Definition onopen (ws : nat) (w : World) : World :=
  let w := log LogConnected w in
  let w := setStatus connected w in
  let w := set_isConnectingRef false w in
  let w := set_retriesRef 0 w in
  startHeartbeat ws w.

(** The [try] block of [ws.onmessage]: the world it leaves and whether it
    threw. [parsed] is the outcome of [JSON.parse(evt.data)], [None] when
    it throws; [now] is what [Date.now()] returns. *)
Definition onmessage_try (parsed : option JSValue) (now : Z) (w : World)
  : World * bool :=
  match parsed with
  | None => (w, true)
  | Some msg =>
      let w := log LogParsed w in
      match msg with
      | JNull => (w, true)
      | _ =>
          if is_string (prop msg "type") "notification" then
            let w := log LogNotification w in
            let w := setUnread (fun prev => prev + 1) w in
            if bool_decide (permission (platform w) = granted)
               && truthy (prop msg "data")
            then
              match prop msg "data" with
              | Some data =>
                  if notification_throws (platform w) then (w, true)
                  else
                    (raise_alert
                       (mkAlert
                          (or_else (prop data "title") (JStr "New Notification"))
                          (or_else (prop data "message")
                             (JStr "You have a new notification"))
                          (or_else (prop data "id") (JStr (pretty now)))
                          "/favicon.ico") w, false)
              | None => (w, false)
              end
            else (w, false)
          else if is_string (prop msg "type") "pong" then
            (log LogPong w, false)
          else (log LogUnknownType w, false)
      end
  end.

(** [ws.onmessage]. *)
Definition onmessage (parsed : option JSValue) (now : Z) (w : World) : World :=
  let w := log LogRaw w in
  let '(w, threw) := onmessage_try parsed now w in
  if threw then log ErrRawData (log ErrParse w) else w.

(** [ws.onerror]. *)
Definition onerror (w : World) : World :=
  let w := log ErrSocket w in
  let w := setStatus error w in
  set_isConnectingRef false w.

(** ** The reconnection delay, [Math.min(1000 * Math.pow(2, n - 1), 30000)]
    for the counter [n] just incremented ([1 <= n]). *)
Definition backoff_delay (n : Z) : Z := Z.min (1000 * 2 ^ (n - 1)) 30000.

(** [ws.onclose] of a socket whose handlers closed over [a]. *)
Definition onclose (a : Auth) (wasClean : bool) (w : World) : World :=
  let w := log LogClosed w in
  let w := set_isConnectingRef false w in
  let w :=
    match heartbeatRef (hook w) with
    | Some h => set_heartbeatRef None (clearInterval h w)
    | None => w
    end in
  if negb wasClean && (retriesRef (hook w) <? 5) && still_authenticated a then
    let w := set_retriesRef (retriesRef (hook w) + 1) w in
    let delay := backoff_delay (retriesRef (hook w)) in
    let w := log (LogReconnecting delay (retriesRef (hook w))) w in
    let w := setStatus connecting w in
    let id := length (timeouts (platform w)) in
    set_retryRef (Some id)
      (set_timeouts (timeouts (platform w) ++ [mkTimeout delay a Pending]) w)
  else
    let w := setStatus (if wasClean then disconnected else error) w in
    set_wsRef None w.

(** [connect] of a render that read [a] from the auth context.
    [ctor_throws] tells whether [new WebSocket(wsUrl)] throws. *)
Definition connect (a : Auth) (ctor_throws : bool) (w : World) : World :=
  if negb (has_identity a) then log LogNotAuthenticated w
  else if isConnectingRef (hook w) then log LogAlreadyConnecting w
  else if match wsRef (hook w) with
          | Some s => is_open s w
          | None => false
          end
  then log LogAlreadyConnected w
  else
    let w :=
      match wsRef (hook w) with
      | Some _ => cleanup w
      | None => w
      end in
    let wsUrl :=
      (WS_URL w ++ "?userId=" ++
         match user a with Some u => userId u | None => "" end)%string in
    let w := log LogConnecting w in
    let w := setStatus connecting w in
    let w := set_isConnectingRef true w in
    if ctor_throws then
      let w := log ErrCreate w in
      let w := setStatus error w in
      set_isConnectingRef false w
    else
      let ws := length (sockets (platform w)) in
      set_wsRef (Some ws)
        (set_sockets
           (sockets (platform w) ++ [mkWebSocket wsUrl CONNECTING a false]) w).

(** The [resetUnread] of the returned object. *)
Definition resetUnread (w : World) : World :=
  setUnread (fun _ => 0) (log LogResetUnread w).

(** The connection effect, re-run when [isAuthenticated] or
    [user?.userId] change; what it returns for unmount and re-runs is
    [cleanup]. *)
Definition connection_effect (a : Auth) (ctor_throws : bool) (w : World) : World :=
  if has_identity a then connect a ctor_throws (log LogAuthConnecting w)
  else cleanup (log LogAuthCleanup w).

(** [handleVisibilityChange], with [hidden] the [document.hidden] it
    reads. *)
Definition handleVisibilityChange
  (hidden : bool) (a : Auth) (ctor_throws : bool) (w : World) : World :=
  if negb hidden && has_identity a then
    if match wsRef (hook w) with
       | Some s => negb (is_open s w)
       | None => true
       end
    then connect a ctor_throws (log LogTabVisible w)
    else w
  else w.

(** ** The navigation bar, which renders what the hook returns *)

(** The text on the bell, for the [Auth] the bar reads from the auth
    context and the [unread] it reads from the hook. The bell is rendered
    in the [isAuthenticated && user] branch only, and inside it the badge
    is [unread > 0 && (unread > 99 ? '99+' : unread)]; [None] when nothing
    is rendered. *)
Definition badge (a : Auth) (n : Z) : option string :=
  if still_authenticated a then
    if 0 <? n then Some (if 99 <? n then "99+" else pretty n) else None
  else None.

(** ** The event loop *)

(** What can run next: a call of [connect] or of [cleanup], the
    connection effect or the visibility listener of a render, a call from
    the page ([ResetUnread], [Send]), an event of a socket, a timer, or the
    user answering the permission prompt of the mount effect. *)
Inductive Event :=
| Connect (a : Auth) (ctor_throws : bool)
| Cleanup
| Effect (a : Auth) (ctor_throws : bool)
| VisibilityChange (hidden : bool) (a : Auth) (ctor_throws : bool)
| ResetUnread
| Send (payload : JSValue)
| SockOpen (s : nat)
| SockMessage (s : nat) (parsed : option JSValue) (now : Z)
| SockError (s : nat)
| SockClose (s : nat) (wasClean : bool)
| HeartbeatTick (i : nat) (now : Z)
| RetryFire (t : nat) (ctor_throws : bool)
| PermissionAnswer (p : Permission).

Definition mark_closed (fired : bool) (ws : WebSocket) : WebSocket :=
  mkWebSocket (ws_url ws) CLOSED (ws_closure ws) (fired || ws_close_fired ws).

(** One callback run by the event loop; [None] when the platform cannot
    deliver the event in this world. The platform dispatches the error
    event of a failed socket and its close event in one task, [SockError]
    right before [SockClose]: the page can render the state after the
    second, not the one between the two. A socket opens once, from [CONNECTING];
    delivers messages only while [OPEN]; is [CLOSED] when its error and
    close events are dispatched; and is silent after its close event. An
    interval ticks while it is active, a timeout runs once while pending,
    and the prompt is answered only while the permission is [default]. *)
Definition step (e : Event) (w : World) : option World :=
  match e with
  | Connect a ctor_throws => Some (connect a ctor_throws w)
  | Cleanup => Some (cleanup w)
  | Effect a ctor_throws => Some (connection_effect a ctor_throws w)
  | VisibilityChange hidden a ctor_throws =>
      Some (handleVisibilityChange hidden a ctor_throws w)
  | ResetUnread => Some (resetUnread w)
  | Send payload => Some (send payload w)
  | SockOpen s =>
      match sockets (platform w) !! s with
      | Some ws =>
          if bool_decide (readyState ws = CONNECTING) then
            Some (onopen s
                    (set_sockets (<[s := set_ready OPEN ws]> (sockets (platform w))) w))
          else None
      | None => None
      end
  | SockMessage s parsed now =>
      match sockets (platform w) !! s with
      | Some ws =>
          if bool_decide (readyState ws = OPEN) then Some (onmessage parsed now w)
          else None
      | None => None
      end
  | SockError s =>
      match sockets (platform w) !! s with
      | Some ws =>
          if ws_close_fired ws then None
          else
            Some (onerror
                    (set_sockets
                       (<[s := mark_closed false ws]> (sockets (platform w))) w))
      | None => None
      end
  | SockClose s wasClean =>
      match sockets (platform w) !! s with
      | Some ws =>
          if ws_close_fired ws then None
          else
            Some (onclose (ws_closure ws) wasClean
                    (set_sockets
                       (<[s := mark_closed true ws]> (sockets (platform w))) w))
      | None => None
      end
  | HeartbeatTick i now =>
      match intervals (platform w) !! i with
      | Some iv =>
          if iv_active iv then Some (heartbeat_tick (iv_ws iv) now w) else None
      | None => None
      end
  | RetryFire t ctor_throws =>
      match timeouts (platform w) !! t with
      | Some tm =>
          match to_state tm with
          | Pending =>
              Some (connect (to_closure tm) ctor_throws
                      (set_timeouts
                         (<[t := mkTimeout (to_delay tm) (to_closure tm) Fired]>
                            (timeouts (platform w))) w))
          | _ => None
          end
      | None => None
      end
  | PermissionAnswer p =>
      if bool_decide (permission (platform w) = default) then
        Some (log LogPermission (set_permission p w))
      else None
  end.

Fixpoint run (evs : list Event) (w : World) : option World :=
  match evs with
  | [] => Some w
  | e :: evs' =>
      match step e w with
      | Some w' => run evs' w'
      | None => None
      end
  end.

(** A freshly mounted hook: [useState('disconnected')], [useState(0)],
    refs at [null], [0] and [false], on a platform with no socket and no
    timer yet. *)
Definition mount (perm : Permission) (throws : bool) (env : option string) : World :=
  mkWorld (mkHook disconnected 0 None None None 0 false)
          (mkPlatform [] [] [] perm throws env [] [] []).

Definition reachable (w : World) : Prop :=
  exists perm throws env evs, run evs (mount perm throws env) = Some w.

(** The world after [evs], or [w] itself when the platform cannot deliver
    them. *)
Definition after (evs : list Event) (w : World) : World :=
  from_option id w (run evs w).

(** ** What one event does to the counters *)

Definition unread_effect (e : Event) (u : Z) : Z :=
  match e with
  | SockMessage _ (Some msg) _ =>
      if is_string (prop msg "type") "notification" then u + 1 else u
  | ResetUnread => 0
  | _ => u
  end.

Definition retries_effect (e : Event) (r : Z) : Z :=
  match e with
  | SockOpen _ => 0
  | SockClose _ false => if r <? 5 then r + 1 else r
  | _ => r
  end.

Definition is_unclean_close (e : Event) : bool :=
  match e with SockClose _ false => true | _ => false end.

Definition is_open_event (e : Event) : bool :=
  match e with SockOpen _ => true | _ => false end.

Definition is_reset (e : Event) : bool :=
  match e with ResetUnread => true | _ => false end.

Definition is_notification_frame (e : Event) : bool :=
  match e with
  | SockMessage _ (Some msg) _ => is_string (prop msg "type") "notification"
  | _ => false
  end.

Fixpoint unclean_closes (evs : list Event) : Z :=
  match evs with
  | [] => 0
  | e :: evs' => (if is_unclean_close e then 1 else 0) + unclean_closes evs'
  end.

Fixpoint notification_frames (evs : list Event) : Z :=
  match evs with
  | [] => 0
  | e :: evs' => (if is_notification_frame e then 1 else 0) + notification_frames evs'
  end.

Definition no_open (evs : list Event) : bool :=
  forallb (fun e => negb (is_open_event e)) evs.

Definition no_reset (evs : list Event) : bool :=
  forallb (fun e => negb (is_reset e)) evs.

(** The [Auth] each socket's handlers closed over, in creation order. *)
Definition closures (w : World) : list Auth :=
  ws_closure <$> sockets (platform w).

(** Every socket was created for an authenticated user: the test
    [isAuthenticated && user] of its close handler passes. *)
Definition closures_ok (w : World) : bool :=
  forallb still_authenticated (closures w).

(** The number of [setTimeout] calls so far. *)
Definition ntimeouts (w : World) : Z :=
  Z.of_nat (length (timeouts (platform w))).

(** Every interval that still ticks is the one [heartbeatRef] holds. *)
Definition heartbeats_owned (w : World) : Prop :=
  forall i iv,
    intervals (platform w) !! i = Some iv -> iv_active iv = true ->
    heartbeatRef (hook w) = Some i.

(** The connecting flag tells the truth: while it is set the status is
    [connecting] and the socket the ref holds is still connecting. *)
Definition flight_ok (w : World) : Prop :=
  isConnectingRef (hook w) = true ->
  status (hook w) = connecting /\
  exists s, wsRef (hook w) = Some s /\ ready_state_of s w = Some CONNECTING.



(** What the heartbeat code reads and writes. *)
Definition hb_view (w : World) : option nat * list Interval :=
  (heartbeatRef (hook w), intervals (platform w)).

(** The delays of all the timeouts scheduled so far. *)
Definition delays (w : World) : list Z :=
  to_delay <$> timeouts (platform w).

(** The delays the close handler can ask for while the counter is below
    5. *)
Definition delay_scheduled (d : Z) : Prop :=
  d = 1000 \/ d = 2000 \/ d = 4000 \/ d = 8000 \/ d = 16000.

(** ** Scenarios *)

Definition alice : Auth := mkAuth true (Some (mkUser "u1")).

(** A freshly mounted hook on a page that may raise desktop alerts. *)
Definition page : World := mount granted false None.

(** [{type:"notification", data:{id:"n1", title:"X"}}]. *)
Definition frame_n1 : JSValue :=
  JObj [("type", JStr "notification");
        ("data", JObj [("id", JStr "n1"); ("title", JStr "X")])].

(** The first connection and four reconnections, each failing with an
    error event and an unclean close. *)
Definition five_unclean_closes : list Event :=
  [Connect alice false;
   SockError 0; SockClose 0 false; RetryFire 0 false;
   SockError 1; SockClose 1 false; RetryFire 1 false;
   SockError 2; SockClose 2 false; RetryFire 2 false;
   SockError 3; SockClose 3 false; RetryFire 3 false;
   SockError 4; SockClose 4 false].

(** ... then the fifth reconnection runs and its socket fails too; its
    close event is still to come. *)
Definition fifth_retry_fails : list Event :=
  five_unclean_closes ++ [RetryFire 4 false; SockError 5].

(** A channel is torn down and replaced (identity change); the close event
    of the old socket arrives after the new socket exists; the tab then
    becomes visible again, which calls [connect]. *)
Definition stale_close_trace : list Event :=
  [Connect alice false; SockOpen 0; Cleanup; Connect alice false;
   SockClose 0 true; Connect alice false; SockOpen 1; SockOpen 2].

(** ** Frame lemmas for the platform calls *)

Lemma hook_clearInterval i w : hook (clearInterval i w) = hook w.
Proof. unfold clearInterval. repeat case_match; reflexivity. Qed.

Lemma hook_clearTimeout i w : hook (clearTimeout i w) = hook w.
Proof. unfold clearTimeout. repeat case_match; reflexivity. Qed.

Lemma hook_ws_close i w : hook (ws_close i w) = hook w.
Proof. unfold ws_close. repeat case_match; reflexivity. Qed.

Lemma sockets_clearInterval i w :
  sockets (platform (clearInterval i w)) = sockets (platform w).
Proof. unfold clearInterval. repeat case_match; reflexivity. Qed.

Lemma sockets_clearTimeout i w :
  sockets (platform (clearTimeout i w)) = sockets (platform w).
Proof. unfold clearTimeout. repeat case_match; reflexivity. Qed.

Lemma timeouts_clearInterval i w :
  timeouts (platform (clearInterval i w)) = timeouts (platform w).
Proof. unfold clearInterval. repeat case_match; reflexivity. Qed.

Lemma timeouts_ws_close i w :
  timeouts (platform (ws_close i w)) = timeouts (platform w).
Proof. unfold ws_close. repeat case_match; reflexivity. Qed.

Lemma intervals_clearTimeout i w :
  intervals (platform (clearTimeout i w)) = intervals (platform w).
Proof. unfold clearTimeout. repeat case_match; reflexivity. Qed.

Lemma intervals_ws_close i w :
  intervals (platform (ws_close i w)) = intervals (platform w).
Proof. unfold ws_close. repeat case_match; reflexivity. Qed.

Lemma length_timeouts_clearTimeout t w :
  length (timeouts (platform (clearTimeout t w))) = length (timeouts (platform w)).
Proof.
  unfold clearTimeout. repeat case_match; try reflexivity.
  cbn. apply length_insert.
Qed.

Lemma closures_insert (l : list WebSocket) s ws ws' :
  l !! s = Some ws -> ws_closure ws' = ws_closure ws ->
  ws_closure <$> <[s := ws']> l = ws_closure <$> l.
Proof.
  intros Hs Hc. rewrite list_fmap_insert, Hc.
  apply list_insert_id. by rewrite list_lookup_fmap, Hs.
Qed.

Lemma closures_ws_close s w :
  ws_closure <$> sockets (platform (ws_close s w)) =
  ws_closure <$> sockets (platform w).
Proof.
  unfold ws_close. repeat case_match; try reflexivity.
  all: cbn; by eapply closures_insert.
Qed.

Create Rewrite HintDb frame.
#[local] Hint Rewrite hook_clearInterval hook_clearTimeout hook_ws_close
  sockets_clearInterval sockets_clearTimeout timeouts_clearInterval
  timeouts_ws_close intervals_clearTimeout intervals_ws_close
  length_timeouts_clearTimeout closures_ws_close : frame.

Ltac wcbn :=
  cbn [hook platform status unread wsRef heartbeatRef retryRef retriesRef
       isConnectingRef setStatus setUnread set_wsRef set_heartbeatRef
       set_retryRef set_retriesRef set_isConnectingRef set_sockets
       set_intervals set_timeouts set_permission raise_alert ws_send log
       sockets intervals timeouts permission notification_throws
       NEXT_PUBLIC_WEBSOCKET_URL alerts sent console] in *.

Ltac frame_rw := autorewrite with frame in *.

Ltac wsimpl := repeat first [progress wcbn | progress frame_rw].

Ltac hook_crush := repeat first [progress wsimpl | case_match].

(** Feeds a statement its premises at a concrete input, each one
    evaluated. *)
Ltac feed H :=
  repeat match type of H with
         | ?P -> _ =>
             let h := fresh in
             assert (h : P)
               by (vm_compute; first [reflexivity | discriminate | intuition congruence]);
             specialize (H h); clear h
         end.

(** Splits on what the step function inspects. *)
Ltac step_cases H :=
  repeat match type of H with
         | context [match ?x with _ => _ end] => destruct x eqn:?
         end;
  simplify_eq.

(** ** What each callback does to [unread] *)

Lemma unread_cleanup w : unread (hook (cleanup w)) = unread (hook w).
Proof. unfold cleanup. hook_crush; reflexivity. Qed.

Lemma unread_connect a c w : unread (hook (connect a c w)) = unread (hook w).
Proof.
  unfold connect. hook_crush; rewrite ?unread_cleanup; reflexivity.
Qed.

Lemma unread_connection_effect a c w :
  unread (hook (connection_effect a c w)) = unread (hook w).
Proof.
  unfold connection_effect.
  case_match; rewrite ?unread_connect, ?unread_cleanup; reflexivity.
Qed.

Lemma unread_handleVisibilityChange h a c w :
  unread (hook (handleVisibilityChange h a c w)) = unread (hook w).
Proof.
  unfold handleVisibilityChange.
  repeat case_match; rewrite ?unread_connect; reflexivity.
Qed.

Lemma unread_send p w : unread (hook (send p w)) = unread (hook w).
Proof. unfold send. hook_crush; reflexivity. Qed.

Lemma unread_onopen s w : unread (hook (onopen s w)) = unread (hook w).
Proof. unfold onopen, startHeartbeat. hook_crush; reflexivity. Qed.

Lemma unread_onclose a c w : unread (hook (onclose a c w)) = unread (hook w).
Proof. unfold onclose. hook_crush; reflexivity. Qed.

Lemma unread_heartbeat_tick s now w :
  unread (hook (heartbeat_tick s now w)) = unread (hook w).
Proof. unfold heartbeat_tick. hook_crush; reflexivity. Qed.

Lemma unread_onmessage parsed now w :
  unread (hook (onmessage parsed now w)) =
  match parsed with
  | Some msg =>
      if is_string (prop msg "type") "notification" then unread (hook w) + 1
      else unread (hook w)
  | None => unread (hook w)
  end.
Proof.
  unfold onmessage, onmessage_try.
  destruct parsed as [msg|]; [|reflexivity].
  destruct msg; cbn [prop is_string];
    hook_crush; simplify_eq; hook_crush; reflexivity.
Qed.

Lemma step_unread e w w' :
  step e w = Some w' -> unread (hook w') = unread_effect e (unread (hook w)).
Proof.
  intros H. destruct e; cbn [step unread_effect] in *; step_cases H.
  all: rewrite ?unread_connect, ?unread_cleanup, ?unread_send, ?unread_onopen,
         ?unread_onclose, ?unread_heartbeat_tick, ?unread_onmessage,
         ?unread_connection_effect, ?unread_handleVisibilityChange;
       try reflexivity.
Qed.

(** ** What each callback does to [retriesRef] *)

Lemma retries_cleanup w : retriesRef (hook (cleanup w)) = retriesRef (hook w).
Proof. unfold cleanup. hook_crush; reflexivity. Qed.

Lemma retries_connect a c w :
  retriesRef (hook (connect a c w)) = retriesRef (hook w).
Proof.
  unfold connect. hook_crush; rewrite ?retries_cleanup; reflexivity.
Qed.

Lemma retries_connection_effect a c w :
  retriesRef (hook (connection_effect a c w)) = retriesRef (hook w).
Proof.
  unfold connection_effect.
  case_match; rewrite ?retries_connect, ?retries_cleanup; reflexivity.
Qed.

Lemma retries_handleVisibilityChange h a c w :
  retriesRef (hook (handleVisibilityChange h a c w)) = retriesRef (hook w).
Proof.
  unfold handleVisibilityChange.
  repeat case_match; rewrite ?retries_connect; reflexivity.
Qed.

Lemma retries_send p w : retriesRef (hook (send p w)) = retriesRef (hook w).
Proof. unfold send. hook_crush; reflexivity. Qed.

Lemma retries_onopen s w : retriesRef (hook (onopen s w)) = 0.
Proof. unfold onopen, startHeartbeat. hook_crush; reflexivity. Qed.

Lemma retries_heartbeat_tick s now w :
  retriesRef (hook (heartbeat_tick s now w)) = retriesRef (hook w).
Proof. unfold heartbeat_tick. hook_crush; reflexivity. Qed.

Lemma retries_onmessage parsed now w :
  retriesRef (hook (onmessage parsed now w)) = retriesRef (hook w).
Proof.
  unfold onmessage, onmessage_try.
  hook_crush; simplify_eq; hook_crush; reflexivity.
Qed.

Lemma retries_onclose a wasClean w :
  retriesRef (hook (onclose a wasClean w)) =
  if negb wasClean && (retriesRef (hook w) <? 5) && still_authenticated a
  then retriesRef (hook w) + 1 else retriesRef (hook w).
Proof. unfold onclose. hook_crush; done. Qed.

Lemma closures_ok_lookup w s ws :
  closures_ok w = true -> sockets (platform w) !! s = Some ws ->
  still_authenticated (ws_closure ws) = true.
Proof.
  unfold closures_ok, closures. rewrite forallb_forall. intros H Hs.
  apply H, list_elem_of_In, list_elem_of_lookup. exists s.
  by rewrite list_lookup_fmap, Hs.
Qed.

Lemma step_retries e w w' :
  closures_ok w = true -> step e w = Some w' ->
  retriesRef (hook w') = retries_effect e (retriesRef (hook w)).
Proof.
  intros Hok H. destruct e; cbn [step retries_effect] in *; step_cases H.
  all: rewrite ?retries_connect, ?retries_cleanup, ?retries_send,
         ?retries_onopen, ?retries_heartbeat_tick, ?retries_onmessage,
         ?retries_onclose, ?retries_connection_effect,
         ?retries_handleVisibilityChange;
       try reflexivity.
  erewrite closures_ok_lookup by eauto. cbn [hook set_sockets].
  destruct wasClean, (retriesRef (hook w) <? 5); reflexivity.
Qed.

(** ** What each callback does to the sockets *)

Lemma sockets_send p w : sockets (platform (send p w)) = sockets (platform w).
Proof. unfold send. hook_crush; reflexivity. Qed.

Lemma sockets_onopen s w : sockets (platform (onopen s w)) = sockets (platform w).
Proof. unfold onopen, startHeartbeat. hook_crush; reflexivity. Qed.

Lemma sockets_onmessage parsed now w :
  sockets (platform (onmessage parsed now w)) = sockets (platform w).
Proof.
  unfold onmessage, onmessage_try.
  hook_crush; simplify_eq; hook_crush; reflexivity.
Qed.

Lemma sockets_onclose a c w :
  sockets (platform (onclose a c w)) = sockets (platform w).
Proof. unfold onclose. hook_crush; reflexivity. Qed.

Lemma sockets_heartbeat_tick s now w :
  sockets (platform (heartbeat_tick s now w)) = sockets (platform w).
Proof. unfold heartbeat_tick. hook_crush; reflexivity. Qed.

Lemma closures_cleanup w : closures (cleanup w) = closures w.
Proof. unfold cleanup, closures. hook_crush; reflexivity. Qed.

Lemma closures_connect a c w :
  closures (connect a c w) = closures w \/
  (has_identity a = true /\ closures (connect a c w) = closures w ++ [a]).
Proof.
  unfold connect.
  destruct (has_identity a) eqn:Ha; cbn [negb]; [|by left].
  destruct (isConnectingRef (hook w)); [by left|].
  case_match; [by left|].
  assert (closures (match wsRef (hook w) with Some _ => cleanup w | None => w end)
          = closures w) as Hc.
  { case_match; [apply closures_cleanup|reflexivity]. }
  destruct c; [left|right; split; [done|]]; unfold closures in *; wsimpl.
  - done.
  - by rewrite fmap_app, Hc.
Qed.

Lemma has_identity_still_authenticated a :
  has_identity a = true -> still_authenticated a = true.
Proof.
  unfold has_identity, still_authenticated.
  destruct (isAuthenticated a), (user a); done.
Qed.

Lemma closures_ok_connect a c w :
  closures_ok w = true -> closures_ok (connect a c w) = true.
Proof.
  unfold closures_ok. intros H.
  destruct (closures_connect a c w) as [->|[Ha ->]]; [done|].
  rewrite forallb_app, H. cbn.
  by rewrite andb_true_r, has_identity_still_authenticated.
Qed.

Lemma closures_ok_cleanup w :
  closures_ok w = true -> closures_ok (cleanup w) = true.
Proof. unfold closures_ok. by rewrite closures_cleanup. Qed.

Lemma step_closures_ok e w w' :
  closures_ok w = true -> step e w = Some w' -> closures_ok w' = true.
Proof.
  intros Hok H. destruct e; cbn [step] in H; step_cases H.
  all: try (apply closures_ok_connect; done).
  all: try (apply closures_ok_cleanup; done).
  all: unfold connection_effect, handleVisibilityChange in *.
  all: repeat case_match.
  all: try (apply closures_ok_connect; done).
  all: try (apply closures_ok_cleanup; done).
  all: try done.
  all: unfold closures_ok, closures, onerror, resetUnread in *.
  all: rewrite ?sockets_send, ?sockets_onopen, ?sockets_onmessage,
         ?sockets_onclose, ?sockets_heartbeat_tick; wsimpl; try done.
  all: erewrite closures_insert; eauto.
Qed.

Lemma run_closures_ok evs : forall w w',
  closures_ok w = true -> run evs w = Some w' -> closures_ok w' = true.
Proof.
  induction evs as [|e evs IH]; intros w w' Hok Hrun; cbn in Hrun.
  - by simplify_eq.
  - destruct (step e w) as [w1|] eqn:Hs; [|done].
    eapply IH; [|done]. by eapply step_closures_ok.
Qed.

Lemma reachable_closures_ok w : reachable w -> closures_ok w = true.
Proof.
  intros (perm & throws & env & evs & Hrun).
  by eapply run_closures_ok; [|exact Hrun].
Qed.

(** ** What each callback does to the timeouts *)

Lemma ntimeouts_cleanup w : ntimeouts (cleanup w) = ntimeouts w.
Proof. unfold cleanup, ntimeouts. hook_crush; reflexivity. Qed.

Lemma ntimeouts_connect a c w : ntimeouts (connect a c w) = ntimeouts w.
Proof.
  unfold connect, ntimeouts. hook_crush; try reflexivity.
  all: fold (ntimeouts (cleanup w)); by rewrite ntimeouts_cleanup.
Qed.

Lemma ntimeouts_connection_effect a c w :
  ntimeouts (connection_effect a c w) = ntimeouts w.
Proof.
  unfold connection_effect.
  case_match; rewrite ?ntimeouts_connect, ?ntimeouts_cleanup; reflexivity.
Qed.

Lemma ntimeouts_handleVisibilityChange h a c w :
  ntimeouts (handleVisibilityChange h a c w) = ntimeouts w.
Proof.
  unfold handleVisibilityChange.
  repeat case_match; rewrite ?ntimeouts_connect; reflexivity.
Qed.

Lemma ntimeouts_send p w : ntimeouts (send p w) = ntimeouts w.
Proof. unfold send, ntimeouts. hook_crush; reflexivity. Qed.

Lemma ntimeouts_onopen s w : ntimeouts (onopen s w) = ntimeouts w.
Proof. unfold onopen, startHeartbeat, ntimeouts. hook_crush; reflexivity. Qed.

Lemma ntimeouts_onmessage parsed now w :
  ntimeouts (onmessage parsed now w) = ntimeouts w.
Proof.
  unfold onmessage, onmessage_try, ntimeouts.
  hook_crush; simplify_eq; hook_crush; reflexivity.
Qed.

Lemma ntimeouts_heartbeat_tick s now w :
  ntimeouts (heartbeat_tick s now w) = ntimeouts w.
Proof. unfold heartbeat_tick, ntimeouts. hook_crush; reflexivity. Qed.

Lemma ntimeouts_onclose a wasClean w :
  ntimeouts (onclose a wasClean w) =
  ntimeouts w + (retriesRef (hook (onclose a wasClean w)) - retriesRef (hook w)).
Proof.
  unfold onclose, ntimeouts. hook_crush; rewrite ?length_app; cbn [length]; lia.
Qed.

(** Outside a successful open, the timeouts scheduled by a step are as
    many as the counter grew. *)
Lemma step_timeouts e w w' :
  is_open_event e = false -> step e w = Some w' ->
  ntimeouts w' = ntimeouts w + (retriesRef (hook w') - retriesRef (hook w)).
Proof.
  intros Hno H. destruct e; try discriminate Hno; cbn [step] in H; step_cases H.
  all: rewrite ?ntimeouts_onclose, ?ntimeouts_connect, ?ntimeouts_cleanup,
         ?ntimeouts_send, ?ntimeouts_onmessage, ?ntimeouts_heartbeat_tick,
         ?ntimeouts_connection_effect, ?ntimeouts_handleVisibilityChange,
         ?retries_connect, ?retries_cleanup, ?retries_send,
         ?retries_heartbeat_tick, ?retries_onmessage,
         ?retries_connection_effect, ?retries_handleVisibilityChange.
  all: unfold ntimeouts, onerror, resetUnread; wsimpl; rewrite ?length_insert; lia.
Qed.

Lemma unclean_closes_nonneg evs : 0 <= unclean_closes evs.
Proof.
  induction evs as [|e evs IH]; cbn; [lia|].
  destruct (is_unclean_close e); lia.
Qed.

(** Between successful opens the counter counts the unclean closes, up to
    5, and one timeout is scheduled for each increment. *)
Lemma run_retries evs : forall w w',
  closures_ok w = true -> 0 <= retriesRef (hook w) <= 5 ->
  no_open evs = true -> run evs w = Some w' ->
  closures_ok w' = true /\
  retriesRef (hook w') = Z.min 5 (retriesRef (hook w) + unclean_closes evs) /\
  ntimeouts w' = ntimeouts w + (retriesRef (hook w') - retriesRef (hook w)).
Proof.
  induction evs as [|e evs IH]; intros w w' Hok Hr Hno Hrun; cbn in *.
  - simplify_eq. repeat split; [done|lia..].
  - destruct (step e w) as [w1|] eqn:Hs; [|done].
    apply andb_prop in Hno as [He Hno]. apply negb_true_iff in He.
    pose proof (step_retries _ _ _ Hok Hs) as Hr1.
    pose proof (step_timeouts _ _ _ He Hs) as Ht1.
    pose proof (step_closures_ok _ _ _ Hok Hs) as Hok1.
    pose proof (unclean_closes_nonneg evs) as Hnn.
    assert (retriesRef (hook w1) =
            retriesRef (hook w) + (if is_unclean_close e then 1 else 0)
            \/ (retriesRef (hook w) = 5 /\ retriesRef (hook w1) = 5)) as Hcase.
    { rewrite Hr1. destruct e; cbn; try (left; lia); try discriminate He.
      destruct wasClean; cbn; [left; lia|].
      destruct (Z.ltb_spec (retriesRef (hook w)) 5); [left; lia|right; lia]. }
    destruct (IH w1 w' Hok1) as (Hok' & Hr' & Ht'); [|done|done|].
    { destruct Hcase as [Hc|Hc]; [|lia]. rewrite Hr1 in *.
      destruct e; cbn in *; try lia. destruct wasClean; [lia|].
      destruct (Z.ltb_spec (retriesRef (hook w)) 5); lia. }
    split; [done|]. split; [|lia].
    rewrite Hr'. destruct Hcase as [Hc|Hc]; [rewrite Hc; f_equal; lia|].
    destruct (is_unclean_close e); lia.
Qed.

Lemma run_app evs1 : forall evs2 w,
  run (evs1 ++ evs2) w =
  match run evs1 w with Some w1 => run evs2 w1 | None => None end.
Proof.
  induction evs1 as [|e evs1 IH]; intros evs2 w; cbn; [done|].
  destruct (step e w); [apply IH|done].
Qed.

Lemma unclean_closes_app evs1 evs2 :
  unclean_closes (evs1 ++ evs2) = unclean_closes evs1 + unclean_closes evs2.
Proof.
  induction evs1 as [|e evs1 IH]; cbn; [lia|]. rewrite IH. lia.
Qed.

(** Below the cap the delay is the plain power of two. *)
Lemma backoff_delay_uncapped k :
  0 <= k < 5 -> backoff_delay (k + 1) = 1000 * 2 ^ k.
Proof.
  intros Hk.
  assert (k = 0 \/ k = 1 \/ k = 2 \/ k = 3 \/ k = 4) as Hc by lia.
  destruct Hc as [->|[->|[->|[->| ->]]]]; reflexivity.
Qed.

(** ** The two branches of the close handler *)

Lemma onclose_retry a w :
  still_authenticated a = true -> retriesRef (hook w) < 5 ->
  status (hook (onclose a false w)) = connecting /\
  retriesRef (hook (onclose a false w)) = retriesRef (hook w) + 1 /\
  retryRef (hook (onclose a false w)) = Some (length (timeouts (platform w))) /\
  wsRef (hook (onclose a false w)) = wsRef (hook w) /\
  timeouts (platform (onclose a false w)) =
    timeouts (platform w) ++
    [mkTimeout (backoff_delay (retriesRef (hook w) + 1)) a Pending].
Proof.
  intros Ha Hr. unfold onclose.
  assert ((retriesRef (hook w) <? 5) = true) as Hlt by (apply Z.ltb_lt; lia).
  hook_crush; rewrite ?Ha, ?Hlt in *; done.
Qed.

Lemma onclose_give_up a w :
  5 <= retriesRef (hook w) ->
  status (hook (onclose a false w)) = error /\
  wsRef (hook (onclose a false w)) = None /\
  retriesRef (hook (onclose a false w)) = retriesRef (hook w) /\
  retryRef (hook (onclose a false w)) = retryRef (hook w) /\
  timeouts (platform (onclose a false w)) = timeouts (platform w).
Proof.
  intros Hr. unfold onclose.
  assert ((retriesRef (hook w) <? 5) = false) as Hlt by (apply Z.ltb_ge; lia).
  hook_crush; rewrite ?Hlt in *; done.
Qed.

(** ** What [cleanup] leaves in the hook *)

Lemma cleanup_leaves w :
  status (hook (cleanup w)) = disconnected /\
  wsRef (hook (cleanup w)) = None /\
  heartbeatRef (hook (cleanup w)) = None /\
  retryRef (hook (cleanup w)) = None /\
  isConnectingRef (hook (cleanup w)) = false.
Proof. unfold cleanup. hook_crush; done. Qed.

(** * The claims *)

(** C1: at most one channel open at any instant. The close handler of
    every socket clears [wsRef] whatever socket the ref holds: after a
    channel is replaced, the clean close of the old socket makes the hook
    forget the new one, and the next [connect] opens a second channel
    beside it. Both sockets 1 and 2 end up [OPEN]. *)
Theorem two_channels_open_after_stale_close :
  exists w,
    run stale_close_trace page = Some w /\
    ready_state_of 1 w = Some OPEN /\
    ready_state_of 2 w = Some OPEN /\
    wsRef (hook w) = Some 2%nat.
Proof.
  eexists. split; [vm_compute; reflexivity|].
  repeat split; vm_compute; reflexivity.
Qed.

(** C2: the unclean close that makes the counter [n] schedules its retry
    after [min(1000 * 2^(n-1), 30000)] ms; that is 1000 for [n = 1], 16000
    for [n = 5] and 30000 for [n = 7]. *)
Theorem backoff_delay_schedule
  (w w' : World) (s : nat) (ws : WebSocket) (n : Z) :
  sockets (platform w) !! s = Some ws ->
  still_authenticated (ws_closure ws) = true ->
  retriesRef (hook w) < 5 ->
  step (SockClose s false) w = Some w' ->
  n = retriesRef (hook w') ->
  n = retriesRef (hook w) + 1 /\
  timeouts (platform w') =
    timeouts (platform w) ++
    [mkTimeout (Z.min (1000 * 2 ^ (n - 1)) 30000) (ws_closure ws) Pending] /\
  retryRef (hook w') = Some (length (timeouts (platform w))) /\
  backoff_delay 1 = 1000 /\ backoff_delay 5 = 16000 /\ backoff_delay 7 = 30000.
Proof.
  intros Hs Ha Hr Hstep ->. cbn [step] in Hstep. rewrite Hs in Hstep.
  destruct (ws_close_fired ws); [done|]. simplify_eq.
  edestruct (onclose_retry (ws_closure ws)) as (_ & Hn & Href & _ & Ht); [done| |].
  2:{ rewrite Hn, Ht, Href. wsimpl. unfold backoff_delay. done. }
  wsimpl. done.
Qed.

(** The first failure of the first socket schedules the retry at 1000 ms. *)
Lemma backoff_delay_schedule_witness :
  retriesRef
    (hook (after [Connect alice false; SockError 0; SockClose 0 false] page)) = 1 /\
  timeouts
    (platform (after [Connect alice false; SockError 0; SockClose 0 false] page))
    = [mkTimeout 1000 alice Pending].
Proof.
  pose proof (backoff_delay_schedule
                (after [Connect alice false; SockError 0] page)
                (after [Connect alice false; SockError 0; SockClose 0 false] page)
                0 (mkWebSocket (WS_URL page ++ "?userId=u1") CLOSED alice false) 1)
    as H.
  feed H. destruct H as (H1 & H2 & _).
  split; [vm_compute; reflexivity|].
  vm_compute in H2. vm_compute. exact H2.
Defined.

(** C3, as stated, fails: after five consecutive unclean closes the status
    is [connecting] and the fifth retry is pending, at 16000 ms. *)
Lemma five_unclean_closes_still_retrying :
  unclean_closes five_unclean_closes = 5 /\
  no_open five_unclean_closes = true /\
  exists w,
    run five_unclean_closes page = Some w /\
    status (hook w) = connecting /\
    retryRef (hook w) = Some 4%nat /\
    timeouts (platform w) !! 4%nat = Some (mkTimeout 16000 alice Pending).
Proof.
  split; [reflexivity|]. split; [reflexivity|].
  eexists. split; [vm_compute; reflexivity|].
  repeat split; vm_compute; reflexivity.
Qed.

(** C3, amended: from a counter at 0 and with no successful open, the
    counter is the number of unclean closes up to 5 and exactly that many
    retries have been scheduled. Each of the first five unclean closes
    leaves the status [connecting] with a retry pending, the one after
    [k] earlier ones at [1000 * 2^k] ms, so 16000 ms for the fifth. Once
    five have been counted, every unclean close sets [error], clears the
    handle and schedules nothing. *)
Theorem retry_ceiling (w w' : World) (evs : list Event) :
  closures_ok w = true ->
  retriesRef (hook w) = 0 ->
  no_open evs = true ->
  run evs w = Some w' ->
  retriesRef (hook w') = Z.min 5 (unclean_closes evs) /\
  ntimeouts w' = ntimeouts w + Z.min 5 (unclean_closes evs) /\
  (forall evs0 s,
     evs = evs0 ++ [SockClose s false] -> unclean_closes evs0 < 5 ->
     status (hook w') = connecting /\
     exists t tm,
       retryRef (hook w') = Some t /\
       timeouts (platform w') !! t = Some tm /\
       to_state tm = Pending /\
       to_delay tm = 1000 * 2 ^ unclean_closes evs0 /\
       (unclean_closes evs = 5 -> to_delay tm = 16000)) /\
  (5 <= unclean_closes evs ->
   forall s w'', step (SockClose s false) w' = Some w'' ->
     status (hook w'') = error /\
     wsRef (hook w'') = None /\
     retriesRef (hook w'') = 5 /\
     retryRef (hook w'') = retryRef (hook w') /\
     timeouts (platform w'') = timeouts (platform w')).
Proof.
  intros Hok Hr Hno Hrun.
  destruct (run_retries evs w w' Hok ltac:(lia) Hno Hrun) as (_ & Hr' & Ht').
  rewrite Hr in *. rewrite Z.add_0_l in Hr'. rewrite Z.sub_0_r in Ht'.
  split; [done|]. split; [by rewrite Ht', Hr'|]. split.
  - intros evs0 s -> Hlt. rewrite run_app in Hrun.
    destruct (run evs0 w) as [w0|] eqn:Hrun0; [|done].
    unfold no_open in Hno. rewrite forallb_app in Hno.
    apply andb_prop in Hno as [Hno0 _].
    destruct (run_retries evs0 w w0 Hok ltac:(lia) Hno0 Hrun0) as (Hok0 & Hr0 & _).
    pose proof (unclean_closes_nonneg evs0) as Hnn.
    rewrite Hr, Z.add_0_l, Z.min_r in Hr0 by lia.
    cbn [run step] in Hrun.
    destruct (sockets (platform w0) !! s) as [ws|] eqn:Hs; [|done].
    destruct (ws_close_fired ws); [done|]. simplify_eq.
    match goal with
    | |- context [onclose ?a false ?W] =>
        destruct (onclose_retry a W) as (H1 & _ & H3 & _ & H5);
          [by eapply closures_ok_lookup|wsimpl; lia|]
    end.
    rewrite H1, H3, H5. wsimpl. split; [done|].
    eexists _, _. split; [done|]. split; [apply list_lookup_middle; done|].
    cbn [to_state to_delay]. split; [done|].
    rewrite Hr0, backoff_delay_uncapped by lia. split; [done|].
    rewrite unclean_closes_app. cbn [unclean_closes is_unclean_close].
    intros H. replace (unclean_closes evs0) with 4 by lia. reflexivity.
  - intros Hfive s w'' Hstep. cbn [step] in Hstep.
    destruct (sockets (platform w') !! s) as [ws|]; [|done].
    destruct (ws_close_fired ws); [done|]. simplify_eq.
    edestruct (onclose_give_up (ws_closure ws)) as (H1 & H2 & H3 & H4 & H5).
    2:{ rewrite H1, H2, H3, H4, H5. wsimpl. repeat split; try done. lia. }
    wsimpl. lia.
Qed.

(** The fifth consecutive unclean close leaves the retry of 16000 ms
    pending; the sixth is the one that sets [error]. *)
Lemma retry_ceiling_witness :
  status (hook (after five_unclean_closes page)) = connecting /\
  retriesRef (hook (after fifth_retry_fails page)) = 5 /\
  ntimeouts (after fifth_retry_fails page) = 5 /\
  status (hook (after (fifth_retry_fails ++ [SockClose 5 false]) page)) = error.
Proof.
  pose proof (retry_ceiling page (after five_unclean_closes page)
                five_unclean_closes) as H0.
  feed H0. destruct H0 as (_ & _ & H0 & _).
  pose proof (H0 [Connect alice false;
                  SockError 0; SockClose 0 false; RetryFire 0 false;
                  SockError 1; SockClose 1 false; RetryFire 1 false;
                  SockError 2; SockClose 2 false; RetryFire 2 false;
                  SockError 3; SockClose 3 false; RetryFire 3 false;
                  SockError 4] 4%nat) as H0'.
  feed H0'. destruct H0' as (H0' & _).
  pose proof (retry_ceiling page (after fifth_retry_fails page) fifth_retry_fails)
    as H.
  feed H. destruct H as (H1 & H2 & _ & H3).
  assert (5 <= unclean_closes fifth_retry_fails) as H5
    by (vm_compute; discriminate).
  pose proof (H3 H5 5%nat (after (fifth_retry_fails ++ [SockClose 5 false]) page))
    as H4.
  feed H4. destruct H4 as (H4 & _).
  split; [exact H0'|]. split; [exact H1|]. split; [exact H2|exact H4].
Defined.

(** C4, as stated, fails: when [new WebSocket] throws on the very first
    [connect], the status is [error] with the counter at 0, and no retry
    is scheduled to recover from it. *)
Lemma constructor_failure_surfaces_error :
  exists w,
    run [Connect alice true] page = Some w /\
    retriesRef (hook w) = 0 /\
    status (hook w) = error /\
    timeouts (platform w) = [] /\
    sockets (platform w) = [].
Proof.
  eexists. split; [vm_compute; reflexivity|]. repeat split; reflexivity.
Qed.

(** C4, amended: while the counter is below 5, every unclean close leaves
    the status [connecting], counts the failure and schedules one retry,
    also when the error handler of the same socket has just set [error];
    but a [connect] whose [new WebSocket] throws ends in [error] whatever
    the counter, and schedules nothing. *)
Theorem error_below_ceiling :
  (forall w w' s,
     closures_ok w = true -> retriesRef (hook w) < 5 ->
     step (SockClose s false) w = Some w' ->
     status (hook w') = connecting /\
     retriesRef (hook w') = retriesRef (hook w) + 1 /\
     ntimeouts w' = ntimeouts w + 1) /\
  (forall w w1 w2 s,
     closures_ok w = true -> retriesRef (hook w) < 5 ->
     step (SockError s) w = Some w1 ->
     step (SockClose s false) w1 = Some w2 ->
     status (hook w2) = connecting /\
     retriesRef (hook w2) = retriesRef (hook w) + 1 /\
     ntimeouts w2 = ntimeouts w + 1) /\
  (forall w a,
     has_identity a = true -> isConnectingRef (hook w) = false ->
     match wsRef (hook w) with Some s => is_open s w | None => false end = false ->
     status (hook (connect a true w)) = error /\
     retriesRef (hook (connect a true w)) = retriesRef (hook w) /\
     ntimeouts (connect a true w) = ntimeouts w).
Proof.
  assert (forall w w' s,
            closures_ok w = true -> retriesRef (hook w) < 5 ->
            step (SockClose s false) w = Some w' ->
            status (hook w') = connecting /\
            retriesRef (hook w') = retriesRef (hook w) + 1 /\
            ntimeouts w' = ntimeouts w + 1) as Hclose.
  { intros w w' s Hok Hr Hstep. cbn [step] in Hstep.
    destruct (sockets (platform w) !! s) as [ws|] eqn:Hs; [|done].
    destruct (ws_close_fired ws); [done|]. simplify_eq.
    match goal with
    | |- context [onclose ?a false ?W] =>
        destruct (onclose_retry a W) as (H1 & H2 & _ & _ & H5);
          [by eapply closures_ok_lookup|by wsimpl|]
    end.
    unfold ntimeouts. rewrite H1, H2, H5. wsimpl.
    rewrite length_app. cbn [length]. repeat split; try done. lia. }
  split; [exact Hclose|]. split.
  - intros w w1 w2 s Hok Hr He Hc.
    pose proof (step_closures_ok _ _ _ Hok He) as Hok1.
    pose proof (step_retries _ _ _ Hok He) as Hr1. cbn in Hr1.
    pose proof (step_timeouts (SockError s) w w1 eq_refl He) as Ht1.
    destruct (Hclose w1 w2 s Hok1 ltac:(lia) Hc) as (H1 & H2 & H3).
    split; [done|]. split; lia.
  - intros w a Ha Hc Ho. rewrite retries_connect, ntimeouts_connect.
    split; [|done]. unfold connect. rewrite Ha, Hc, Ho. reflexivity.
Qed.

(** The first socket fails with the hook idle: [connecting] after its
    error and close; and the constructor throwing: [error]. *)
Lemma error_below_ceiling_witness :
  status (hook (after [Connect alice false; SockError 0; SockClose 0 false] page))
    = connecting /\
  status (hook (connect alice true page)) = error.
Proof.
  destruct error_below_ceiling as (_ & H1 & H2).
  pose proof (H1 (after [Connect alice false] page)
                (after [Connect alice false; SockError 0] page)
                (after [Connect alice false; SockError 0; SockClose 0 false] page)
                0%nat) as H.
  feed H. destruct H as (H & _).
  pose proof (H2 page alice) as H'. feed H'. destruct H' as (H' & _).
  split; [exact H|exact H'].
Defined.

Lemma run_unread_nonneg evs : forall w w',
  0 <= unread (hook w) -> run evs w = Some w' -> 0 <= unread (hook w').
Proof.
  induction evs as [|e evs IH]; intros w w' Hu Hrun; cbn in Hrun.
  - by simplify_eq.
  - destruct (step e w) as [w1|] eqn:Hs; [|done].
    apply (IH w1 w'); [|done]. rewrite (step_unread _ _ _ Hs).
    destruct e; cbn; try lia. destruct parsed; [|lia]. case_match; lia.
Qed.

(** C5: a step changes [unread] only when it delivers a frame whose type
    is [notification] (by exactly 1) or calls [resetUnread] (to 0); the
    count is never negative; [resetUnread] can be called in every state and
    calling it twice leaves the hook as calling it once. *)
Theorem unread_only_by_notification_and_reset :
  (forall e w w', step e w = Some w' ->
     unread (hook w') = unread_effect e (unread (hook w))) /\
  (forall w, reachable w -> 0 <= unread (hook w)) /\
  (forall w, step ResetUnread w = Some (resetUnread w) /\
             unread (hook (resetUnread w)) = 0 /\
             hook (resetUnread (resetUnread w)) = hook (resetUnread w)).
Proof.
  split; [exact step_unread|]. split.
  - intros w (perm & throws & env & evs & Hrun).
    eapply run_unread_nonneg; [|exact Hrun]. cbn. lia.
  - intros w. repeat split.
Qed.

(** One notification, then a teardown: the count is 1 and stays 1. *)
Lemma unread_only_by_notification_and_reset_witness :
  unread (hook (after [Connect alice false; SockOpen 0;
                       SockMessage 0 (Some frame_n1) 5] page)) = 1 /\
  unread (hook (after [Connect alice false; SockOpen 0;
                       SockMessage 0 (Some frame_n1) 5; Cleanup] page)) = 1.
Proof.
  destruct unread_only_by_notification_and_reset as (H & _ & _).
  pose proof (H (SockMessage 0 (Some frame_n1) 5)
                (after [Connect alice false; SockOpen 0] page)
                (after [Connect alice false; SockOpen 0;
                        SockMessage 0 (Some frame_n1) 5] page)) as H1.
  feed H1.
  pose proof (H Cleanup
                (after [Connect alice false; SockOpen 0;
                        SockMessage 0 (Some frame_n1) 5] page)
                (after [Connect alice false; SockOpen 0;
                        SockMessage 0 (Some frame_n1) 5; Cleanup] page)) as H2.
  feed H2. rewrite H2, H1. split; vm_compute; reflexivity.
Defined.

(** C6, as stated, fails: the frame with id [n1] received twice on an open
    channel leaves [unread] at 2. *)
Lemma same_id_counted_twice :
  exists w,
    run [Connect alice false; SockOpen 0;
         SockMessage 0 (Some frame_n1) 5; SockMessage 0 (Some frame_n1) 6] page
      = Some w /\
    unread (hook w) = 2.
Proof. eexists. split; [vm_compute; reflexivity|]. reflexivity. Qed.

(** C6, amended: every frame whose type is [notification] counts, whatever
    its [data.id]: the same frame delivered twice adds 2. *)
Theorem every_notification_frame_counts
  (msg : JSValue) (now1 now2 : Z) (w : World) :
  is_string (prop msg "type") "notification" = true ->
  unread (hook (onmessage (Some msg) now2 (onmessage (Some msg) now1 w)))
    = unread (hook w) + 2.
Proof. intros H. rewrite !unread_onmessage, H. lia. Qed.

Lemma every_notification_frame_counts_witness :
  unread (hook (onmessage (Some frame_n1) 6 (onmessage (Some frame_n1) 5 page))) = 2.
Proof.
  pose proof (every_notification_frame_counts frame_n1 5 6 page) as H.
  feed H. exact H.
Defined.

(** C7: no retry timer fires after teardown. A hook torn down while its
    socket is still connecting has no timer left; the socket then reports
    the failed connection with an error and an unclean close, whose handler
    schedules a retry; the retry fires and opens socket 1. *)
Theorem retry_fires_after_teardown :
  exists w1 w2 w3,
    run [Connect alice false; Cleanup] page = Some w1 /\
    heartbeatRef (hook w1) = None /\
    retryRef (hook w1) = None /\
    timeouts (platform w1) = [] /\
    run [SockError 0; SockClose 0 false] w1 = Some w2 /\
    timeouts (platform w2) = [mkTimeout 1000 alice Pending] /\
    run [RetryFire 0 false] w2 = Some w3 /\
    ready_state_of 1 w3 = Some CONNECTING /\
    wsRef (hook w3) = Some 1%nat /\
    status (hook w3) = connecting.
Proof.
  eexists _, _, _. split; [vm_compute; reflexivity|].
  do 3 (split; [vm_compute; reflexivity|]).
  split; [vm_compute; reflexivity|].
  split; [vm_compute; reflexivity|].
  split; [vm_compute; reflexivity|].
  repeat split; vm_compute; reflexivity.
Qed.

(** C8: a frame whose payload does not parse is delivered without the
    handler throwing; it is logged and dropped: the hook, the sockets (the
    channel stays [OPEN]), the timers, the alerts and the frames sent are
    as before. *)
Theorem parse_failure_dropped (w : World) (s : nat) (now : Z) :
  ready_state_of s w = Some OPEN ->
  exists w',
    step (SockMessage s None now) w = Some w' /\
    hook w' = hook w /\
    sockets (platform w') = sockets (platform w) /\
    ready_state_of s w' = Some OPEN /\
    intervals (platform w') = intervals (platform w) /\
    timeouts (platform w') = timeouts (platform w) /\
    alerts (platform w') = alerts (platform w) /\
    sent (platform w') = sent (platform w) /\
    console (platform w') = console (platform w) ++ [LogRaw; ErrParse; ErrRawData].
Proof.
  unfold ready_state_of. intros Hs.
  destruct (sockets (platform w) !! s) as [ws|] eqn:Hws; [|done].
  cbn in Hs. simplify_eq.
  exists (onmessage None now w). cbn [step]. rewrite Hws, Hs.
  unfold ready_state_of. cbn. rewrite Hws. cbn. rewrite Hs.
  rewrite <- !app_assoc. done.
Qed.

Lemma parse_failure_dropped_witness :
  exists w',
    step (SockMessage 0 None 7) (after [Connect alice false; SockOpen 0] page)
      = Some w' /\
    hook w' = hook (after [Connect alice false; SockOpen 0] page) /\
    ready_state_of 0 w' = Some OPEN.
Proof.
  pose proof (parse_failure_dropped
                (after [Connect alice false; SockOpen 0] page) 0 7) as H.
  feed H. destruct H as (w' & H1 & H2 & _ & H3 & _).
  exists w'. split; [exact H1|]. split; [exact H2|exact H3].
Defined.

(** C9, as stated, fails: the unclean close that finds the counter at 5
    does not increment it. *)
Lemma unclean_close_at_ceiling_not_counted :
  exists w w',
    run fifth_retry_fails page = Some w /\
    step (SockClose 5 false) w = Some w' /\
    retriesRef (hook w) = 5 /\
    retriesRef (hook w') = 5 /\
    retriesRef (hook w') <> retriesRef (hook w) + 1.
Proof.
  eexists _, _. split; [vm_compute; reflexivity|].
  split; [vm_compute; reflexivity|]. repeat split; vm_compute; congruence.
Qed.

(** C9, amended: a successful open sets the counter to 0; an unclean close
    increments it when it is below 5 and leaves it otherwise; every other
    step, a call of [connect] included, leaves it as it is. *)
Theorem retry_counter_effect (e : Event) (w w' : World) :
  closures_ok w = true ->
  step e w = Some w' ->
  retriesRef (hook w') =
    match e with
    | SockOpen _ => 0
    | SockClose _ false =>
        if retriesRef (hook w) <? 5 then retriesRef (hook w) + 1
        else retriesRef (hook w)
    | _ => retriesRef (hook w)
    end.
Proof. exact (step_retries e w w'). Qed.

(** After exhaustion a fresh [connect] leaves the counter at 5; the open
    of its socket resets it. *)
Lemma retry_counter_effect_witness :
  retriesRef
    (hook (after (fifth_retry_fails ++ [SockClose 5 false; Connect alice false])
             page)) = 5 /\
  retriesRef
    (hook (after (fifth_retry_fails ++
                    [SockClose 5 false; Connect alice false; SockOpen 6]) page))
    = 0.
Proof.
  pose proof (retry_counter_effect (Connect alice false)
                (after (fifth_retry_fails ++ [SockClose 5 false]) page)
                (after (fifth_retry_fails ++ [SockClose 5 false; Connect alice false])
                   page)) as H1.
  feed H1.
  pose proof (retry_counter_effect (SockOpen 6)
                (after (fifth_retry_fails ++ [SockClose 5 false; Connect alice false])
                   page)
                (after (fifth_retry_fails ++
                          [SockClose 5 false; Connect alice false; SockOpen 6]) page))
    as H2.
  feed H2. split; [|exact H2].
  rewrite H1. vm_compute; reflexivity.
Defined.

(** C10: whatever the state before, [error] included, [cleanup] leaves the
    status [disconnected], the three refs [null] and the connecting flag
    [false]. *)
Theorem cleanup_postcondition (w : World) :
  status (hook (cleanup w)) = disconnected /\
  wsRef (hook (cleanup w)) = None /\
  heartbeatRef (hook (cleanup w)) = None /\
  retryRef (hook (cleanup w)) = None /\
  isConnectingRef (hook (cleanup w)) = false.
Proof. exact (cleanup_leaves w). Qed.

(** * More of the hook *)

(** ** [connect]: its guards *)

(** X1: [connect] does nothing but log while a connection attempt is in
    flight or while the socket the ref holds is open. *)
Theorem connect_noop_when_in_flight_or_open (a : Auth) (c : bool) (w : World) :
  isConnectingRef (hook w) = true \/
  (exists s, wsRef (hook w) = Some s /\ ready_state_of s w = Some OPEN) ->
  hook (connect a c w) = hook w /\
  sockets (platform (connect a c w)) = sockets (platform w) /\
  intervals (platform (connect a c w)) = intervals (platform w) /\
  timeouts (platform (connect a c w)) = timeouts (platform w) /\
  sent (platform (connect a c w)) = sent (platform w).
Proof.
  intros H. unfold connect.
  destruct (has_identity a); cbn [negb]; [|done].
  destruct H as [->|(s & Hs & Ho)]; [done|].
  destruct (isConnectingRef (hook w)); [done|].
  rewrite Hs. unfold is_open. rewrite Ho.
  rewrite bool_decide_eq_true_2 by done. done.
Qed.

Lemma connect_noop_when_in_flight_or_open_witness :
  sockets (platform (connect alice false (after [Connect alice false] page)))
    = sockets (platform (after [Connect alice false] page)) /\
  sockets (platform (connect alice false (after [Connect alice false; SockOpen 0] page)))
    = sockets (platform (after [Connect alice false; SockOpen 0] page)).
Proof.
  pose proof (connect_noop_when_in_flight_or_open alice false
                (after [Connect alice false] page)) as H1.
  assert (isConnectingRef (hook (after [Connect alice false] page)) = true)
    as Hf by (vm_compute; reflexivity).
  destruct (H1 (or_introl Hf)) as (_ & H1' & _).
  pose proof (connect_noop_when_in_flight_or_open alice false
                (after [Connect alice false; SockOpen 0] page)) as H2.
  assert (exists s,
            wsRef (hook (after [Connect alice false; SockOpen 0] page)) = Some s /\
            ready_state_of s (after [Connect alice false; SockOpen 0] page)
              = Some OPEN) as Ho
    by (exists 0%nat; split; vm_compute; reflexivity).
  destruct (H2 (or_intror Ho)) as (_ & H2' & _).
  split; [exact H1'|exact H2'].
Defined.

(** X2: without an identity ([isAuthenticated] false, no user, or a user
    whose [userId] is the empty string) [connect] does nothing but log:
    no status change, no socket, no timer. *)
Theorem connect_without_identity_noop (a : Auth) (c : bool) (w : World) :
  has_identity a = false ->
  hook (connect a c w) = hook w /\
  sockets (platform (connect a c w)) = sockets (platform w) /\
  intervals (platform (connect a c w)) = intervals (platform w) /\
  timeouts (platform (connect a c w)) = timeouts (platform w) /\
  console (platform (connect a c w)) = console (platform w) ++ [LogNotAuthenticated].
Proof. intros H. unfold connect. rewrite H. done. Qed.

Lemma connect_without_identity_noop_witness :
  hook (connect (mkAuth true (Some (mkUser ""))) false page) = hook page /\
  sockets (platform (connect (mkAuth true (Some (mkUser ""))) false page)) = [].
Proof.
  pose proof (connect_without_identity_noop
                (mkAuth true (Some (mkUser ""))) false page) as H.
  feed H. destruct H as (H1 & H2 & _). split; [exact H1|exact H2].
Defined.

(** ** [cleanup]: what it releases *)

Lemma intervals_clearInterval i w :
  intervals (platform (clearInterval i w)) =
  match intervals (platform w) !! i with
  | Some iv => <[i := mkInterval (iv_ws iv) false]> (intervals (platform w))
  | None => intervals (platform w)
  end.
Proof. unfold clearInterval. repeat case_match; reflexivity. Qed.

Lemma timeouts_clearTimeout t w :
  timeouts (platform (clearTimeout t w)) =
  match timeouts (platform w) !! t with
  | Some tm =>
      match to_state tm with
      | Pending =>
          <[t := mkTimeout (to_delay tm) (to_closure tm) Cleared]>
            (timeouts (platform w))
      | _ => timeouts (platform w)
      end
  | None => timeouts (platform w)
  end.
Proof. unfold clearTimeout. repeat case_match; reflexivity. Qed.

Lemma sockets_ws_close s w :
  sockets (platform (ws_close s w)) =
  match sockets (platform w) !! s with
  | Some ws =>
      match readyState ws with
      | CONNECTING | OPEN => <[s := set_ready CLOSING ws]> (sockets (platform w))
      | CLOSING | CLOSED => sockets (platform w)
      end
  | None => sockets (platform w)
  end.
Proof. unfold ws_close. repeat case_match; reflexivity. Qed.

Lemma sockets_cleanup w :
  sockets (platform (cleanup w)) =
  match wsRef (hook w) with
  | Some s => sockets (platform (ws_close s w))
  | None => sockets (platform w)
  end.
Proof.
  unfold cleanup. hook_crush; rewrite ?sockets_ws_close; wsimpl; simplify_eq; reflexivity.
Qed.

Lemma intervals_cleanup w :
  intervals (platform (cleanup w)) =
  match heartbeatRef (hook w) with
  | Some h => intervals (platform (clearInterval h w))
  | None => intervals (platform w)
  end.
Proof.
  unfold cleanup. hook_crush; rewrite ?intervals_clearInterval; wsimpl; simplify_eq; reflexivity.
Qed.

Lemma timeouts_cleanup w :
  timeouts (platform (cleanup w)) =
  match retryRef (hook w) with
  | Some t => timeouts (platform (clearTimeout t w))
  | None => timeouts (platform w)
  end.
Proof.
  unfold cleanup. hook_crush; rewrite ?timeouts_clearTimeout; wsimpl; simplify_eq; reflexivity.
Qed.

(** X3: [cleanup] leaves the socket the ref held neither connecting nor
    open, the interval [heartbeatRef] held stopped and the timeout
    [retryRef] held no longer pending; it touches no other socket. *)
Theorem cleanup_releases (w : World) :
  (forall s, wsRef (hook w) = Some s ->
     ready_state_of s (cleanup w) <> Some CONNECTING /\
     ready_state_of s (cleanup w) <> Some OPEN) /\
  (forall h iv, heartbeatRef (hook w) = Some h ->
     intervals (platform (cleanup w)) !! h = Some iv -> iv_active iv = false) /\
  (forall t tm, retryRef (hook w) = Some t ->
     timeouts (platform (cleanup w)) !! t = Some tm -> to_state tm <> Pending) /\
  (forall s, wsRef (hook w) <> Some s ->
     ready_state_of s (cleanup w) = ready_state_of s w).
Proof.
  split; [|split; [|split]].
  - intros s Hs. unfold ready_state_of. rewrite sockets_cleanup, Hs, sockets_ws_close.
    destruct (sockets (platform w) !! s) as [ws|] eqn:Hw; [|by rewrite Hw].
    destruct (readyState ws) eqn:Hr.
    1,2: rewrite list_lookup_insert_eq by (eapply lookup_lt_Some; eauto); done.
    all: rewrite Hw; cbn; rewrite Hr; done.
  - intros h iv Hh. rewrite intervals_cleanup, Hh, intervals_clearInterval.
    destruct (intervals (platform w) !! h) as [iv0|] eqn:Hi; [|by rewrite Hi].
    rewrite list_lookup_insert_eq by (eapply lookup_lt_Some; eauto).
    by intros [= <-].
  - intros t tm Ht. rewrite timeouts_cleanup, Ht, timeouts_clearTimeout.
    destruct (timeouts (platform w) !! t) as [tm0|] eqn:Hi; [|by rewrite Hi].
    destruct (to_state tm0) eqn:Hst.
    + rewrite list_lookup_insert_eq by (eapply lookup_lt_Some; eauto).
      by intros [= <-].
    + rewrite Hi. intros [= <-]. by rewrite Hst.
    + rewrite Hi. intros [= <-]. by rewrite Hst.
  - intros s Hs. unfold ready_state_of. rewrite sockets_cleanup.
    destruct (wsRef (hook w)) as [s0|]; [|done].
    rewrite sockets_ws_close. repeat case_match; try done.
    all: rewrite list_lookup_insert_ne by congruence; done.
Qed.

Lemma cleanup_releases_witness :
  ready_state_of 0 (cleanup (after [Connect alice false; SockOpen 0] page))
    <> Some OPEN /\
  intervals (platform (cleanup (after [Connect alice false; SockOpen 0] page)))
    = [mkInterval 0 false].
Proof.
  destruct (cleanup_releases (after [Connect alice false; SockOpen 0] page))
    as (H1 & _).
  pose proof (H1 0%nat) as H. feed H. destruct H as (_ & H).
  split; [exact H|vm_compute; reflexivity].
Defined.

(** ** [connect]: what it creates *)

Lemma connect_noop_in_flight a c w :
  isConnectingRef (hook w) = true ->
  hook (connect a c w) = hook w /\
  sockets (platform (connect a c w)) = sockets (platform w) /\
  intervals (platform (connect a c w)) = intervals (platform w) /\
  timeouts (platform (connect a c w)) = timeouts (platform w) /\
  sent (platform (connect a c w)) = sent (platform w).
Proof.
  intros H. unfold connect. destruct (has_identity a); cbn [negb]; [|done].
  by rewrite H.
Qed.

Lemma env_clearInterval i w :
  NEXT_PUBLIC_WEBSOCKET_URL (platform (clearInterval i w)) =
  NEXT_PUBLIC_WEBSOCKET_URL (platform w).
Proof. unfold clearInterval. repeat case_match; reflexivity. Qed.

Lemma env_clearTimeout i w :
  NEXT_PUBLIC_WEBSOCKET_URL (platform (clearTimeout i w)) =
  NEXT_PUBLIC_WEBSOCKET_URL (platform w).
Proof. unfold clearTimeout. repeat case_match; reflexivity. Qed.

Lemma env_ws_close i w :
  NEXT_PUBLIC_WEBSOCKET_URL (platform (ws_close i w)) =
  NEXT_PUBLIC_WEBSOCKET_URL (platform w).
Proof. unfold ws_close. repeat case_match; reflexivity. Qed.

Lemma WS_URL_cleanup w : WS_URL (cleanup w) = WS_URL w.
Proof.
  unfold WS_URL.
  assert (NEXT_PUBLIC_WEBSOCKET_URL (platform (cleanup w)) =
          NEXT_PUBLIC_WEBSOCKET_URL (platform w)) as ->; [|reflexivity].
  unfold cleanup.
  repeat first [progress wsimpl
               | rewrite env_clearInterval | rewrite env_clearTimeout
               | rewrite env_ws_close
               | match goal with
                 | |- context [match ?x with _ => _ end] => destruct x
                 end ];
  reflexivity.
Qed.

(** When the guards let it through, [connect] first replaces the world by
    the one [cleanup] leaves if the ref holds a socket. *)
Lemma connect_proceeds a c w :
  has_identity a = true -> isConnectingRef (hook w) = false ->
  match wsRef (hook w) with Some s => is_open s w | None => false end = false ->
  connect a c w =
  let w0 := match wsRef (hook w) with Some _ => cleanup w | None => w end in
  let w1 := set_isConnectingRef true (setStatus connecting (log LogConnecting w0)) in
  if c then set_isConnectingRef false (setStatus error (log ErrCreate w1))
  else
    set_wsRef (Some (length (sockets (platform w0))))
      (set_sockets
         (sockets (platform w0) ++
          [mkWebSocket
             (WS_URL w ++ "?userId=" ++
                match user a with Some u => userId u | None => "" end)
             CONNECTING a false]) w1).
Proof.
  intros Ha Hc Ho. unfold connect. rewrite Ha, Hc, Ho. cbn [negb].
  destruct (wsRef (hook w)); cbn zeta; rewrite ?WS_URL_cleanup; reflexivity.
Qed.

(** X4: two calls of [connect] in a row on an idle hook create exactly one
    socket, connecting to [WS_URL?userId=<id>]; the ref holds it, the
    status is [connecting] and the attempt is in flight. *)
Theorem connect_twice_one_socket (a : Auth) (u : User) (c : bool) (w : World) :
  has_identity a = true ->
  user a = Some u ->
  isConnectingRef (hook w) = false ->
  wsRef (hook w) = None ->
  let w' := connect a c (connect a false w) in
  sockets (platform w') =
    sockets (platform w) ++
    [mkWebSocket (WS_URL w ++ "?userId=" ++ userId u) CONNECTING a false] /\
  wsRef (hook w') = Some (length (sockets (platform w))) /\
  status (hook w') = connecting /\
  isConnectingRef (hook w') = true /\
  retriesRef (hook w') = retriesRef (hook w) /\
  timeouts (platform w') = timeouts (platform w).
Proof.
  intros Ha Hu Hc Hw w'. subst w'.
  assert (connect a false w =
          set_wsRef (Some (length (sockets (platform w))))
            (set_sockets
               (sockets (platform w) ++
                [mkWebSocket (WS_URL w ++ "?userId=" ++ userId u) CONNECTING a false])
               (set_isConnectingRef true
                  (setStatus connecting (log LogConnecting w))))) as ->.
  { rewrite connect_proceeds by (rewrite ?Hw; done). rewrite Hw, Hu. reflexivity. }
  edestruct connect_noop_in_flight as (Hh & Hs & _ & Ht & _).
  2:{ rewrite Hh, Hs, Ht. wsimpl. done. }
  wsimpl. done.
Qed.

Lemma connect_twice_one_socket_witness :
  sockets (platform (connect alice false (connect alice false page))) =
    [mkWebSocket
       "wss://m75xolz360.execute-api.eu-north-1.amazonaws.com/prod?userId=u1"
       CONNECTING alice false].
Proof.
  pose proof (connect_twice_one_socket alice (mkUser "u1") false page) as H.
  feed H. destruct H as (H & _). exact H.
Defined.

(** X5: when [new WebSocket] throws, [connect] ends in [error] with no
    attempt in flight, no handle, no new socket and no retry scheduled:
    nothing reconnects until [connect] is called again. *)
Theorem connect_constructor_failure (a : Auth) (w : World) :
  has_identity a = true ->
  isConnectingRef (hook w) = false ->
  match wsRef (hook w) with Some s => is_open s w | None => false end = false ->
  status (hook (connect a true w)) = error /\
  isConnectingRef (hook (connect a true w)) = false /\
  wsRef (hook (connect a true w)) = None /\
  retriesRef (hook (connect a true w)) = retriesRef (hook w) /\
  length (sockets (platform (connect a true w))) = length (sockets (platform w)) /\
  ntimeouts (connect a true w) = ntimeouts w.
Proof.
  intros Ha Hc Ho. rewrite ntimeouts_connect, retries_connect.
  rewrite connect_proceeds by done. cbn zeta. wsimpl.
  destruct (cleanup_leaves w) as (_ & Hw & _).
  destruct (wsRef (hook w)) as [s|] eqn:Hs; wsimpl; [|done].
  rewrite sockets_cleanup, Hs, sockets_ws_close.
  repeat split; try done.
  repeat case_match; rewrite ?length_insert; done.
Qed.

Lemma connect_constructor_failure_witness :
  status (hook (connect alice true page)) = error /\
  sockets (platform (connect alice true page)) = [] /\
  ntimeouts (connect alice true page) = 0.
Proof.
  pose proof (connect_constructor_failure alice page) as H.
  feed H. destruct H as (H1 & _ & _ & _ & _ & H3).
  split; [exact H1|]. split; [vm_compute; reflexivity|exact H3].
Defined.

(** ** The connection effect and the visibility listener *)

Lemma length_sockets_cleanup w :
  length (sockets (platform (cleanup w))) = length (sockets (platform w)).
Proof.
  rewrite sockets_cleanup. destruct (wsRef (hook w)); [|done].
  rewrite sockets_ws_close. repeat case_match; rewrite ?length_insert; done.
Qed.

(** X6: when the identity changes, React runs the effect's clean-up and
    then the effect. With an identity this always creates one new
    connecting socket for [WS_URL?userId=<id>], held by the ref and in
    flight, and keeps the retry counter; without one it leaves the hook
    torn down. *)
Theorem effect_rerun (a : Auth) (c : bool) (w : World) :
  (forall u, has_identity a = true -> user a = Some u ->
     let w' := connection_effect a false (cleanup w) in
     sockets (platform w') =
       sockets (platform (cleanup w)) ++
       [mkWebSocket (WS_URL w ++ "?userId=" ++ userId u) CONNECTING a false] /\
     wsRef (hook w') = Some (length (sockets (platform w))) /\
     status (hook w') = connecting /\
     isConnectingRef (hook w') = true /\
     retriesRef (hook w') = retriesRef (hook w)) /\
  (has_identity a = false ->
     let w' := connection_effect a c (cleanup w) in
     status (hook w') = disconnected /\
     wsRef (hook w') = None /\
     isConnectingRef (hook w') = false /\
     sockets (platform w') = sockets (platform (cleanup w)) /\
     ntimeouts w' = ntimeouts w).
Proof.
  destruct (cleanup_leaves w) as (_ & Hw & _ & _ & Hc).
  split.
  - intros u Ha Hu w'. subst w'. unfold connection_effect. rewrite Ha.
    rewrite connect_proceeds by (wsimpl; rewrite ?Hw; done).
    cbn zeta. wsimpl. rewrite Hw, Hu. wsimpl.
    rewrite length_sockets_cleanup, retries_cleanup.
    change (WS_URL (log LogAuthConnecting (cleanup w))) with (WS_URL (cleanup w)).
    rewrite WS_URL_cleanup. repeat split; reflexivity.
  - intros Ha w'. subst w'. unfold connection_effect. rewrite Ha.
    destruct (cleanup_leaves (log LogAuthCleanup (cleanup w)))
      as (H1 & H2 & _ & _ & H5).
    rewrite H1, H2, H5, !ntimeouts_cleanup, sockets_cleanup. wsimpl.
    rewrite Hw. repeat split; try reflexivity.
    change (ntimeouts (log LogAuthCleanup (cleanup w))) with (ntimeouts (cleanup w)).
    apply ntimeouts_cleanup.
Qed.

Lemma effect_rerun_witness :
  wsRef (hook (connection_effect alice false
                 (cleanup (after [Connect alice false; SockOpen 0] page))))
    = Some 1%nat /\
  status (hook (connection_effect (mkAuth false None) false
                  (cleanup (after [Connect alice false; SockOpen 0] page))))
    = disconnected.
Proof.
  destruct (effect_rerun alice false (after [Connect alice false; SockOpen 0] page))
    as (H1 & _).
  pose proof (H1 (mkUser "u1")) as H. feed H. destruct H as (_ & H & _).
  destruct (effect_rerun (mkAuth false None) false
              (after [Connect alice false; SockOpen 0] page)) as (_ & H2).
  feed H2. destruct H2 as (H2 & _).
  split; [exact H|exact H2].
Defined.

(** X7: the visibility listener leaves the world untouched when the tab
    is hidden, when there is no identity and when the ref's socket is
    open; during an attempt in flight it creates no socket; it never
    changes the retry counter. *)
Theorem visibility_reconnects_only_when_needed
  (hidden : bool) (a : Auth) (c : bool) (w : World) :
  (hidden = true \/ has_identity a = false \/
   (exists s, wsRef (hook w) = Some s /\ ready_state_of s w = Some OPEN) ->
   handleVisibilityChange hidden a c w = w) /\
  (isConnectingRef (hook w) = true ->
   hook (handleVisibilityChange hidden a c w) = hook w /\
   sockets (platform (handleVisibilityChange hidden a c w)) = sockets (platform w)) /\
  retriesRef (hook (handleVisibilityChange hidden a c w)) = retriesRef (hook w).
Proof.
  split; [|split; [|apply retries_handleVisibilityChange]].
  - unfold handleVisibilityChange.
    intros [->|[->|(s & Hs & Ho)]]; [done|by rewrite andb_false_r|].
    rewrite Hs. unfold is_open. rewrite Ho.
    rewrite bool_decide_eq_true_2 by done. by case_match.
  - intros Hc. unfold handleVisibilityChange.
    repeat case_match; try done.
    all: edestruct connect_noop_in_flight as (Hh & Hs & _);
      [|rewrite Hh, Hs; done]; done.
Qed.

Lemma visibility_reconnects_only_when_needed_witness :
  handleVisibilityChange false alice false
    (after [Connect alice false; SockOpen 0] page)
  = after [Connect alice false; SockOpen 0] page /\
  sockets (platform (handleVisibilityChange false alice false
                       (after [Connect alice false] page)))
  = sockets (platform (after [Connect alice false] page)).
Proof.
  destruct (visibility_reconnects_only_when_needed false alice false
              (after [Connect alice false; SockOpen 0] page)) as (H1 & _).
  assert (exists s,
            wsRef (hook (after [Connect alice false; SockOpen 0] page)) = Some s /\
            ready_state_of s (after [Connect alice false; SockOpen 0] page)
              = Some OPEN) as Ho
    by (exists 0%nat; split; vm_compute; reflexivity).
  pose proof (H1 (or_intror (or_intror Ho))) as H1'.
  destruct (visibility_reconnects_only_when_needed false alice false
              (after [Connect alice false] page)) as (_ & H2 & _).
  feed H2. destruct H2 as (_ & H2).
  split; [exact H1'|exact H2].
Defined.

(** X8: a reconnection from outside gets no fresh retry budget. With the
    counter at 5 and no handle (the state exhaustion leaves), the tab
    becoming visible creates a new socket; if that socket closes uncleanly
    the status is [error] at once and no retry is scheduled. *)
Theorem reconnect_after_exhaustion_is_single_shot (a : Auth) (w w2 : World) :
  has_identity a = true ->
  retriesRef (hook w) = 5 ->
  wsRef (hook w) = None ->
  isConnectingRef (hook w) = false ->
  let w1 := handleVisibilityChange false a false w in
  step (SockClose (length (sockets (platform w))) false) w1 = Some w2 ->
  wsRef (hook w1) = Some (length (sockets (platform w))) /\
  status (hook w1) = connecting /\
  status (hook w2) = error /\
  wsRef (hook w2) = None /\
  ntimeouts w2 = ntimeouts w.
Proof.
  intros Ha Hr Hw Hc w1 Hstep. subst w1.
  unfold handleVisibilityChange in *. rewrite Ha, Hw in *. cbn [negb andb] in *.
  rewrite connect_proceeds in * by (wsimpl; rewrite ?Hw; done).
  cbn zeta in *. wsimpl. rewrite Hw in *. wsimpl.
  do 2 (split; [done|]).
  cbn [step] in Hstep. wsimpl.
  rewrite list_lookup_middle in Hstep by done.
  cbn [ws_close_fired] in Hstep. simplify_eq. cbn [mark_closed ws_closure].
  match goal with
  | |- context [onclose ?a false ?W] =>
      destruct (onclose_give_up a W) as (H1 & H2 & _ & _ & H5); [wsimpl; lia|]
  end.
  unfold ntimeouts. rewrite H1, H2, H5. wsimpl. done.
Qed.

Lemma reconnect_after_exhaustion_is_single_shot_witness :
  status (hook (after (fifth_retry_fails ++
                         [SockClose 5 false; VisibilityChange false alice false;
                          SockClose 6 false]) page)) = error /\
  ntimeouts (after (fifth_retry_fails ++
                      [SockClose 5 false; VisibilityChange false alice false;
                       SockClose 6 false]) page) = 5.
Proof.
  pose proof (reconnect_after_exhaustion_is_single_shot alice
                (after (fifth_retry_fails ++ [SockClose 5 false]) page)
                (after (fifth_retry_fails ++
                          [SockClose 5 false; VisibilityChange false alice false;
                           SockClose 6 false]) page)) as H.
  feed H. cbv zeta in H. feed H. destruct H as (_ & _ & H1 & _ & H2).
  split; [exact H1|]. rewrite H2. vm_compute; reflexivity.
Defined.

(** ** The heartbeat interval *)

Lemma hb_view_send p w : hb_view (send p w) = hb_view w.
Proof. unfold send, hb_view. hook_crush; reflexivity. Qed.

Lemma hb_view_onmessage parsed now w : hb_view (onmessage parsed now w) = hb_view w.
Proof.
  unfold onmessage, onmessage_try, hb_view.
  hook_crush; simplify_eq; hook_crush; reflexivity.
Qed.

Lemma hb_view_heartbeat_tick s now w : hb_view (heartbeat_tick s now w) = hb_view w.
Proof. unfold heartbeat_tick, hb_view. hook_crush; reflexivity. Qed.

(** The intervals once the one the ref holds, if any, is cleared. *)
Lemma hb_view_cleanup w :
  hb_view (cleanup w) =
  (None, match heartbeatRef (hook w) with
         | Some h => intervals (platform (clearInterval h w))
         | None => intervals (platform w)
         end).
Proof.
  unfold hb_view. rewrite intervals_cleanup.
  by destruct (cleanup_leaves w) as (_ & _ & -> & _).
Qed.

Lemma hb_view_onclose a c w :
  hb_view (onclose a c w) =
  (None, match heartbeatRef (hook w) with
         | Some h => intervals (platform (clearInterval h w))
         | None => intervals (platform w)
         end).
Proof.
  unfold onclose, hb_view.
  hook_crush; rewrite ?intervals_clearInterval; wsimpl; simplify_eq;
    first [done | congruence].
Qed.

Lemma hb_view_onopen s w :
  hb_view (onopen s w) =
  let l := match heartbeatRef (hook w) with
           | Some h => intervals (platform (clearInterval h w))
           | None => intervals (platform w)
           end in
  (Some (length l), l ++ [mkInterval s true]).
Proof.
  unfold onopen, startHeartbeat, hb_view.
  hook_crush; rewrite ?intervals_clearInterval; wsimpl; simplify_eq;
    first [done | congruence].
Qed.

Lemma hb_view_connect a c w :
  hb_view (connect a c w) = hb_view w \/
  hb_view (connect a c w) = hb_view (cleanup w).
Proof.
  unfold connect, hb_view.
  repeat first [progress wsimpl | case_match]; auto.
Qed.

Lemma hb_view_inv w r l :
  hb_view w = (r, l) ->
  heartbeatRef (hook w) = r /\ intervals (platform w) = l.
Proof. unfold hb_view. by intros [= -> ->]. Qed.

Lemma stopped_after_clear w :
  heartbeats_owned w ->
  forall i iv,
    match heartbeatRef (hook w) with
    | Some h => intervals (platform (clearInterval h w))
    | None => intervals (platform w)
    end !! i = Some iv ->
    iv_active iv = false.
Proof.
  intros Hown i iv Hi.
  destruct (iv_active iv) eqn:Hact; [exfalso|done].
  destruct (heartbeatRef (hook w)) as [h|] eqn:Hh.
  - rewrite intervals_clearInterval in Hi.
    destruct (intervals (platform w) !! h) as [iv0|] eqn:Hl.
    + destruct (decide (i = h)) as [->|Hne].
      * rewrite list_lookup_insert_eq in Hi by (eapply lookup_lt_Some; eauto).
        by simplify_eq.
      * rewrite list_lookup_insert_ne in Hi by done.
        specialize (Hown i iv Hi Hact). congruence.
    + specialize (Hown i iv Hi Hact). congruence.
  - specialize (Hown i iv Hi Hact). congruence.
Qed.

Lemma owned_of_view w w' :
  hb_view w' = hb_view w -> heartbeats_owned w -> heartbeats_owned w'.
Proof.
  unfold hb_view, heartbeats_owned. intros [= -> ->]. done.
Qed.

Lemma owned_of_stopped w r :
  (forall i iv, intervals (platform w) !! i = Some iv -> iv_active iv = false) ->
  heartbeatRef (hook w) = r -> heartbeats_owned w.
Proof. intros H _ i iv Hi Ha. rewrite (H i iv Hi) in Ha. done. Qed.

Lemma heartbeats_owned_cleanup w : heartbeats_owned w -> heartbeats_owned (cleanup w).
Proof.
  intros Hown. destruct (hb_view_inv _ _ _ (hb_view_cleanup w)) as [Hr Hi].
  eapply owned_of_stopped; [|exact Hr]. rewrite Hi. by apply stopped_after_clear.
Qed.

Lemma heartbeats_owned_connect a c w :
  heartbeats_owned w -> heartbeats_owned (connect a c w).
Proof.
  intros Hown. destruct (hb_view_connect a c w) as [H|H].
  - by eapply owned_of_view.
  - eapply owned_of_view; [exact H|]. by apply heartbeats_owned_cleanup.
Qed.

Lemma step_heartbeats_owned e w w' :
  heartbeats_owned w -> step e w = Some w' -> heartbeats_owned w'.
Proof.
  intros Hown H. destruct e; cbn [step] in H; step_cases H.
  - by apply heartbeats_owned_connect.
  - by apply heartbeats_owned_cleanup.
  - unfold connection_effect. case_match.
    + apply heartbeats_owned_connect. by eapply owned_of_view.
    + apply heartbeats_owned_cleanup. by eapply owned_of_view.
  - unfold handleVisibilityChange. repeat case_match; try done.
    all: apply heartbeats_owned_connect; by eapply owned_of_view.
  - by eapply owned_of_view.
  - eapply owned_of_view; [apply hb_view_send|done].
  - set (W := set_sockets (<[s:=set_ready OPEN w0]> (sockets (platform w))) w).
    assert (heartbeats_owned W) as HW by (by eapply owned_of_view).
    destruct (hb_view_inv _ _ _ (hb_view_onopen s W)) as [Hr Hi].
    intros i iv Hl Ha. rewrite Hi in Hl. rewrite Hr.
    apply lookup_app_Some in Hl as [Hl|[Hge Hl]].
    + rewrite (stopped_after_clear W HW i iv Hl) in Ha. done.
    + destruct (i - _)%nat as [|k] eqn:Hk; [|done]. f_equal. lia.
  - eapply owned_of_view; [apply hb_view_onmessage|done].
  - by eapply owned_of_view.
  - set (W := set_sockets (<[s:=mark_closed true w0]> (sockets (platform w))) w).
    assert (heartbeats_owned W) as HW by (by eapply owned_of_view).
    destruct (hb_view_inv _ _ _ (hb_view_onclose (ws_closure w0) wasClean W))
      as [Hr Hi].
    eapply owned_of_stopped; [|exact Hr]. rewrite Hi.
    by apply stopped_after_clear.
  - eapply owned_of_view; [apply hb_view_heartbeat_tick|done].
  - apply heartbeats_owned_connect. by eapply owned_of_view.
  - by eapply owned_of_view.
Qed.

Lemma run_heartbeats_owned evs : forall w w',
  heartbeats_owned w -> run evs w = Some w' -> heartbeats_owned w'.
Proof.
  induction evs as [|e evs IH]; intros w w' Hown Hrun; cbn in Hrun.
  - by simplify_eq.
  - destruct (step e w) as [w1|] eqn:Hs; [|done].
    eapply IH; [|done]. by eapply step_heartbeats_owned.
Qed.

(** X9: at every moment the only interval that still ticks is the one
    [heartbeatRef] holds, so at most one heartbeat runs; after [cleanup]
    none does, and no heartbeat tick can be delivered. *)
Theorem one_heartbeat_at_most (w : World) :
  reachable w ->
  heartbeats_owned w /\
  (forall i j iv jv,
     intervals (platform w) !! i = Some iv -> iv_active iv = true ->
     intervals (platform w) !! j = Some jv -> iv_active jv = true -> i = j) /\
  (forall i now, step (HeartbeatTick i now) (cleanup w) = None).
Proof.
  intros (perm & throws & env & evs & Hrun).
  assert (heartbeats_owned w) as Hown.
  { eapply run_heartbeats_owned; [|exact Hrun]. by intros i iv Hi. }
  split; [done|]. split.
  - intros i j iv jv Hi Hai Hj Haj.
    pose proof (Hown i iv Hi Hai). pose proof (Hown j jv Hj Haj). congruence.
  - intros i now. cbn [step].
    destruct (intervals (platform (cleanup w)) !! i) as [iv|] eqn:Hi; [|done].
    destruct (hb_view_inv _ _ _ (hb_view_cleanup w)) as [_ Hl]. rewrite Hl in Hi.
    by rewrite (stopped_after_clear w Hown i iv Hi).
Qed.

Lemma one_heartbeat_at_most_witness :
  heartbeats_owned (after stale_close_trace page) /\
  step (HeartbeatTick 2 0) (cleanup (after stale_close_trace page)) = None.
Proof.
  pose proof (one_heartbeat_at_most (after stale_close_trace page)) as H.
  assert (reachable (after stale_close_trace page)) as Hr.
  { exists granted, false, None, stale_close_trace. vm_compute; reflexivity. }
  destruct (H Hr) as (H1 & _ & H3). split; [exact H1|apply H3].
Defined.

(** ** Bounds on the retry counter and on the delays *)

Lemma delays_clearTimeout t w :
  to_delay <$> timeouts (platform (clearTimeout t w)) =
  to_delay <$> timeouts (platform w).
Proof.
  rewrite timeouts_clearTimeout. repeat case_match; try reflexivity.
  rewrite list_fmap_insert. cbn [to_delay].
  apply list_insert_id. rewrite list_lookup_fmap. by simplify_option_eq.
Qed.

#[local] Hint Rewrite delays_clearTimeout : frame.

Lemma delays_cleanup w : delays (cleanup w) = delays w.
Proof. unfold cleanup, delays. hook_crush; reflexivity. Qed.

Lemma delays_connect a c w : delays (connect a c w) = delays w.
Proof.
  unfold connect, delays. hook_crush; try reflexivity.
  all: fold (delays (cleanup w)); by rewrite delays_cleanup.
Qed.

Lemma delays_send p w : delays (send p w) = delays w.
Proof. unfold send, delays. hook_crush; reflexivity. Qed.

Lemma delays_onopen s w : delays (onopen s w) = delays w.
Proof. unfold onopen, startHeartbeat, delays. hook_crush; reflexivity. Qed.

Lemma delays_onmessage parsed now w : delays (onmessage parsed now w) = delays w.
Proof.
  unfold onmessage, onmessage_try, delays.
  hook_crush; simplify_eq; hook_crush; reflexivity.
Qed.

Lemma delays_heartbeat_tick s now w : delays (heartbeat_tick s now w) = delays w.
Proof. unfold heartbeat_tick, delays. hook_crush; reflexivity. Qed.

Lemma delays_onclose a c w :
  delays (onclose a c w) = delays w \/
  (retriesRef (hook w) < 5 /\
   delays (onclose a c w) = delays w ++ [backoff_delay (retriesRef (hook w) + 1)]).
Proof.
  unfold onclose, delays. hook_crush; auto.
  all: right; split; [|by rewrite fmap_app].
  all: repeat match goal with
         | H : _ && _ = true |- _ => apply andb_prop in H as [? ?]
         end; by apply Z.ltb_lt.
Qed.

Lemma backoff_delay_below_cap r :
  0 <= r < 5 -> delay_scheduled (backoff_delay (r + 1)).
Proof.
  intros Hr. unfold delay_scheduled.
  assert (r = 0 \/ r = 1 \/ r = 2 \/ r = 3 \/ r = 4) as Hc by lia.
  destruct Hc as [->|[->|[->|[->| ->]]]]; vm_compute; auto 6.
Qed.

Lemma step_bounds e w w' :
  closures_ok w = true -> 0 <= retriesRef (hook w) <= 5 ->
  Forall delay_scheduled (delays w) ->
  step e w = Some w' ->
  0 <= retriesRef (hook w') <= 5 /\ Forall delay_scheduled (delays w').
Proof.
  intros Hok Hr Hd H. split.
  - rewrite (step_retries _ _ _ Hok H).
    destruct e; cbn; try lia. destruct wasClean; [lia|].
    destruct (Z.ltb_spec (retriesRef (hook w)) 5); lia.
  - destruct e; cbn [step] in H; step_cases H.
    all: unfold connection_effect, handleVisibilityChange, onerror, resetUnread.
    all: repeat case_match.
    all: rewrite ?delays_connect, ?delays_cleanup, ?delays_send, ?delays_onopen,
           ?delays_onmessage, ?delays_heartbeat_tick; try done.
    + match goal with
      | |- context [onclose ?a ?c ?W] =>
          destruct (delays_onclose a c W) as [->|[Hlt ->]]
      end; [done|].
      wsimpl. apply Forall_app. split; [done|].
      apply Forall_singleton, backoff_delay_below_cap. lia.
    + unfold delays in *. wsimpl. rewrite list_fmap_insert. cbn [to_delay].
      rewrite list_insert_id; [done|]. rewrite list_lookup_fmap.
      by simplify_option_eq.
Qed.

Lemma run_bounds evs : forall w w',
  closures_ok w = true -> 0 <= retriesRef (hook w) <= 5 ->
  Forall delay_scheduled (delays w) ->
  run evs w = Some w' ->
  0 <= retriesRef (hook w') <= 5 /\ Forall delay_scheduled (delays w').
Proof.
  induction evs as [|e evs IH]; intros w w' Hok Hr Hd Hrun; cbn in Hrun.
  - by simplify_eq.
  - destruct (step e w) as [w1|] eqn:Hs; [|done].
    destruct (step_bounds _ _ _ Hok Hr Hd Hs) as [Hr1 Hd1].
    eapply IH; [|done|done|done]. by eapply step_closures_ok.
Qed.

(** X10: in every reachable state the retry counter is between 0 and 5,
    and every retry ever scheduled waits 1000, 2000, 4000, 8000 or 16000
    ms: the cap of 30000 ms is never reached. *)
Theorem retries_and_delays_bounded (w : World) :
  reachable w ->
  0 <= retriesRef (hook w) <= 5 /\
  forall t tm, timeouts (platform w) !! t = Some tm ->
    delay_scheduled (to_delay tm) /\ to_delay tm <= 16000.
Proof.
  intros (perm & throws & env & evs & Hrun).
  destruct (run_bounds evs (mount perm throws env) w) as [Hr Hd];
    [reflexivity|cbn; lia|apply Forall_nil_2|exact Hrun|].
  split; [done|]. intros t tm Ht.
  assert (delay_scheduled (to_delay tm)) as H.
  { eapply Forall_lookup_1; [exact Hd|]. unfold delays.
    rewrite list_lookup_fmap, Ht. done. }
  split; [done|]. unfold delay_scheduled in H. lia.
Qed.

Lemma retries_and_delays_bounded_witness :
  retriesRef (hook (after (fifth_retry_fails ++ [SockClose 5 false]) page)) <= 5.
Proof.
  pose proof (retries_and_delays_bounded
                (after (fifth_retry_fails ++ [SockClose 5 false]) page)) as H.
  assert (reachable (after (fifth_retry_fails ++ [SockClose 5 false]) page)) as Hr.
  { exists granted, false, None, (fifth_retry_fails ++ [SockClose 5 false]).
    vm_compute; reflexivity. }
  destruct (H Hr) as ((_ & H1) & _). exact H1.
Defined.

(** ** The connecting flag *)

Lemma flight_ok_same w w' :
  hook w' = hook w -> sockets (platform w') = sockets (platform w) ->
  flight_ok w -> flight_ok w'.
Proof.
  unfold flight_ok, ready_state_of. intros -> ->. done.
Qed.

Lemma flight_ok_idle w : isConnectingRef (hook w) = false -> flight_ok w.
Proof. unfold flight_ok. intros ->. done. Qed.

Lemma hook_send p w : hook (send p w) = hook w.
Proof. unfold send. hook_crush; reflexivity. Qed.

Lemma hook_heartbeat_tick s now w : hook (heartbeat_tick s now w) = hook w.
Proof. unfold heartbeat_tick. hook_crush; reflexivity. Qed.

(** A frame changes nothing in the hook but [unread]. *)
Lemma hook_onmessage parsed now w :
  hook (onmessage parsed now w) =
  hook (setUnread (fun _ => unread (hook (onmessage parsed now w))) w).
Proof.
  unfold onmessage, onmessage_try.
  hook_crush; simplify_eq; hook_crush; by destruct (hook w).
Qed.

Lemma flight_ok_connect a c w : flight_ok w -> flight_ok (connect a c w).
Proof.
  intros Hf.
  destruct (has_identity a) eqn:Ha.
  2:{ eapply flight_ok_same; [..|exact Hf]; unfold connect; by rewrite Ha. }
  destruct (isConnectingRef (hook w)) eqn:Hc.
  { eapply flight_ok_same; [..|exact Hf]; unfold connect; by rewrite Ha, Hc. }
  destruct (match wsRef (hook w) with Some s => is_open s w | None => false end)
    eqn:Ho.
  { eapply flight_ok_same; [..|exact Hf]; unfold connect; by rewrite Ha, Hc, Ho. }
  rewrite connect_proceeds by done. cbn zeta.
  destruct c; [by apply flight_ok_idle|].
  intros _. wsimpl. split; [done|]. eexists. split; [done|].
  unfold ready_state_of. wsimpl. by rewrite list_lookup_middle.
Qed.

Lemma step_flight_ok e w w' : flight_ok w -> step e w = Some w' -> flight_ok w'.
Proof.
  intros Hf H. destruct e; cbn [step] in H; step_cases H.
  - by apply flight_ok_connect.
  - apply flight_ok_idle. by destruct (cleanup_leaves w) as (_&_&_&_&->).
  - unfold connection_effect. case_match.
    + apply flight_ok_connect. by eapply flight_ok_same.
    + apply flight_ok_idle.
      by destruct (cleanup_leaves (log LogAuthCleanup w)) as (_&_&_&_&->).
  - unfold handleVisibilityChange. repeat case_match; try done.
    all: apply flight_ok_connect; by eapply flight_ok_same.
  - by eapply flight_ok_same.
  - eapply flight_ok_same; [apply hook_send|apply sockets_send|done].
  - apply flight_ok_idle. unfold onopen, startHeartbeat. hook_crush; done.
  - intros Hc. rewrite hook_onmessage in Hc. wsimpl.
    destruct (Hf Hc) as (Hs & s' & Hw & Hr). rewrite hook_onmessage. wsimpl.
    split; [done|]. exists s'. split; [done|].
    unfold ready_state_of in *. by rewrite sockets_onmessage.
  - by apply flight_ok_idle.
  - apply flight_ok_idle. unfold onclose. hook_crush; done.
  - eapply flight_ok_same;
      [apply hook_heartbeat_tick|apply sockets_heartbeat_tick|done].
  - apply flight_ok_connect. by eapply flight_ok_same.
  - by eapply flight_ok_same.
Qed.

Lemma run_flight_ok evs : forall w w',
  flight_ok w -> run evs w = Some w' -> flight_ok w'.
Proof.
  induction evs as [|e evs IH]; intros w w' Hf Hrun; cbn in Hrun.
  - by simplify_eq.
  - destruct (step e w) as [w1|] eqn:Hs; [|done].
    eapply IH; [|done]. by eapply step_flight_ok.
Qed.

(** X11: [isConnectingRef] is set only while the status is [connecting]
    and the socket [wsRef] holds is still connecting; so whenever the
    status is [connected], [disconnected] or [error], the in-flight guard
    does not stop [connect]. *)
Theorem connecting_flag_sound (w : World) :
  reachable w ->
  isConnectingRef (hook w) = true ->
  status (hook w) = connecting /\
  exists s, wsRef (hook w) = Some s /\ ready_state_of s w = Some CONNECTING.
Proof.
  intros (perm & throws & env & evs & Hrun).
  eapply run_flight_ok; [|exact Hrun]. by apply flight_ok_idle.
Qed.

Lemma connecting_flag_sound_witness :
  status (hook (after [Connect alice false; Cleanup; Connect alice false] page))
    = connecting.
Proof.
  pose proof (connecting_flag_sound
                (after [Connect alice false; Cleanup; Connect alice false] page))
    as H.
  assert (reachable (after [Connect alice false; Cleanup; Connect alice false] page))
    as Hr.
  { exists granted, false, None, [Connect alice false; Cleanup; Connect alice false].
    vm_compute; reflexivity. }
  specialize (H Hr). feed H. destruct H as (H & _). exact H.
Defined.

(** ** Counting notifications *)

Lemma run_unread_no_reset evs : forall w w',
  no_reset evs = true -> run evs w = Some w' ->
  unread (hook w') = unread (hook w) + notification_frames evs.
Proof.
  induction evs as [|e evs IH]; intros w w' Hno Hrun; cbn in *.
  - simplify_eq. lia.
  - destruct (step e w) as [w1|] eqn:Hs; [|done].
    apply andb_prop in Hno as [He Hno].
    rewrite (IH w1 w' Hno Hrun), (step_unread _ _ _ Hs).
    cbn [notification_frames].
    destruct e; cbn [unread_effect is_notification_frame is_reset negb] in *;
      try lia; try done.
    destruct parsed as [msg|]; [|lia].
    destruct (is_string (prop msg "type") "notification"); lia.
Qed.

(** X12: [unread] is the number of notification frames delivered since
    the last [resetUnread] (since the start when there was none), whatever
    else happened in between: reconnections, teardowns, failures. *)
Theorem unread_counts_frames (evs1 evs2 : list Event) (w w' : World) :
  no_reset evs2 = true ->
  (run evs2 w = Some w' ->
   unread (hook w') = unread (hook w) + notification_frames evs2) /\
  (run (evs1 ++ ResetUnread :: evs2) w = Some w' ->
   unread (hook w') = notification_frames evs2).
Proof.
  intros Hno. split; [by apply run_unread_no_reset|].
  rewrite run_app. destruct (run evs1 w) as [w1|]; [|done].
  cbn [run step]. intros Hrun.
  rewrite (run_unread_no_reset evs2 _ _ Hno Hrun). cbn. lia.
Qed.

Lemma unread_counts_frames_witness :
  unread (hook (after [Connect alice false; SockOpen 0;
                       SockMessage 0 (Some frame_n1) 1; ResetUnread;
                       SockMessage 0 (Some frame_n1) 2; SockClose 0 false;
                       RetryFire 0 false; SockOpen 1;
                       SockMessage 1 (Some frame_n1) 3] page)) = 2.
Proof.
  pose proof (unread_counts_frames
                [Connect alice false; SockOpen 0; SockMessage 0 (Some frame_n1) 1]
                [SockMessage 0 (Some frame_n1) 2; SockClose 0 false;
                 RetryFire 0 false; SockOpen 1; SockMessage 1 (Some frame_n1) 3]
                page
                (after [Connect alice false; SockOpen 0;
                        SockMessage 0 (Some frame_n1) 1; ResetUnread;
                        SockMessage 0 (Some frame_n1) 2; SockClose 0 false;
                        RetryFire 0 false; SockOpen 1;
                        SockMessage 1 (Some frame_n1) 3] page)) as H.
  feed H. destruct H as (_ & H). feed H. exact H.
Defined.

(** ** Writing to sockets *)

Lemma sent_clearInterval i w :
  sent (platform (clearInterval i w)) = sent (platform w).
Proof. unfold clearInterval. repeat case_match; reflexivity. Qed.

Lemma sent_clearTimeout i w :
  sent (platform (clearTimeout i w)) = sent (platform w).
Proof. unfold clearTimeout. repeat case_match; reflexivity. Qed.

Lemma sent_ws_close i w : sent (platform (ws_close i w)) = sent (platform w).
Proof. unfold ws_close. repeat case_match; reflexivity. Qed.

#[local] Hint Rewrite sent_clearInterval sent_clearTimeout sent_ws_close : frame.

Lemma sent_cleanup w : sent (platform (cleanup w)) = sent (platform w).
Proof. unfold cleanup. hook_crush; reflexivity. Qed.

Lemma sent_connect a c w : sent (platform (connect a c w)) = sent (platform w).
Proof.
  unfold connect. hook_crush; rewrite ?sent_cleanup; reflexivity.
Qed.

Lemma sent_onopen s w : sent (platform (onopen s w)) = sent (platform w).
Proof. unfold onopen, startHeartbeat. hook_crush; reflexivity. Qed.

Lemma sent_onmessage parsed now w :
  sent (platform (onmessage parsed now w)) = sent (platform w).
Proof.
  unfold onmessage, onmessage_try.
  hook_crush; simplify_eq; hook_crush; reflexivity.
Qed.

Lemma sent_onclose a c w : sent (platform (onclose a c w)) = sent (platform w).
Proof. unfold onclose. hook_crush; reflexivity. Qed.

(** X13: a step writes at most one frame, and only to a socket that is
    [OPEN] when the step starts: [send] while the socket of the ref is
    open, the heartbeat while its socket is open. Nothing is queued: a
    [send] in any other state writes nothing. *)
Theorem writes_only_to_open_sockets (e : Event) (w w' : World) :
  step e w = Some w' ->
  sent (platform w') = sent (platform w) \/
  exists s f,
    sent (platform w') = sent (platform w) ++ [(s, f)] /\
    ready_state_of s w = Some OPEN /\
    ((exists p, e = Send p /\ f = Payload p /\ wsRef (hook w) = Some s) \/
     (exists i now iv, e = HeartbeatTick i now /\ f = Ping now /\
        intervals (platform w) !! i = Some iv /\ iv_ws iv = s)).
Proof.
  intros H. destruct e; cbn [step] in H; step_cases H.
  all: unfold connection_effect, handleVisibilityChange, onerror, resetUnread.
  all: repeat case_match.
  all: rewrite ?sent_connect, ?sent_cleanup, ?sent_onopen, ?sent_onmessage,
         ?sent_onclose; wsimpl; auto.
  - unfold send. destruct (wsRef (hook w)) as [s|] eqn:Hs; [|by left].
    destruct (is_open s w) eqn:Ho; [|by left].
    right. exists s, (Payload payload). wsimpl. split; [done|].
    split; [by apply bool_decide_eq_true in Ho|]. left. eauto.
  - unfold heartbeat_tick. destruct (is_open (iv_ws i0) w) eqn:Ho; [|by left].
    right. exists (iv_ws i0), (Ping now). wsimpl. split; [done|].
    split; [by apply bool_decide_eq_true in Ho|]. right. eauto 10.
Qed.

Lemma writes_only_to_open_sockets_witness :
  sent (platform (after [Connect alice false; Send (JStr "hi")] page)) = [] /\
  sent (platform (after [Connect alice false; SockOpen 0; Send (JStr "hi")] page))
    = [(0%nat, Payload (JStr "hi"))].
Proof.
  pose proof (writes_only_to_open_sockets (Send (JStr "hi"))
                (after [Connect alice false] page)
                (after [Connect alice false; Send (JStr "hi")] page)) as H.
  feed H. destruct H as [H|(s & f & _ & Ho & _)].
  - split; [exact H|vm_compute; reflexivity].
  - exfalso. vm_compute in Ho. destruct s as [|[|s]]; discriminate Ho.
Defined.

(** ** Inbound frames *)

(** X14: a frame that parses but is not a notification (a pong, another
    type, no type at all, [null]) changes nothing but the console: the
    hook, the sockets, the timers, the alerts and the frames sent are as
    before. *)
Theorem other_frames_ignored (msg : JSValue) (now : Z) (w : World) :
  is_string (prop msg "type") "notification" = false ->
  hook (onmessage (Some msg) now w) = hook w /\
  sockets (platform (onmessage (Some msg) now w)) = sockets (platform w) /\
  intervals (platform (onmessage (Some msg) now w)) = intervals (platform w) /\
  timeouts (platform (onmessage (Some msg) now w)) = timeouts (platform w) /\
  alerts (platform (onmessage (Some msg) now w)) = alerts (platform w) /\
  sent (platform (onmessage (Some msg) now w)) = sent (platform w) /\
  console (platform (onmessage (Some msg) now w)) =
    console (platform w) ++
    match msg with
    | JNull => [LogRaw; LogParsed; ErrParse; ErrRawData]
    | _ => if is_string (prop msg "type") "pong" then [LogRaw; LogParsed; LogPong]
           else [LogRaw; LogParsed; LogUnknownType]
    end.
Proof.
  intros H. unfold onmessage, onmessage_try.
  destruct msg; rewrite ?H; cbn [prop is_string]; wsimpl;
    rewrite <- ?app_assoc; try done.
  destruct (is_string (assoc "type" fields) "pong"); wsimpl;
    rewrite <- ?app_assoc; done.
Qed.

Lemma other_frames_ignored_witness :
  hook (onmessage (Some (JObj [("type", JStr "pong")])) 0 page) = hook page /\
  hook (onmessage (Some JNull) 0 page) = hook page.
Proof.
  pose proof (other_frames_ignored (JObj [("type", JStr "pong")]) 0 page) as H1.
  feed H1. destruct H1 as (H1 & _).
  pose proof (other_frames_ignored JNull 0 page) as H2.
  feed H2. destruct H2 as (H2 & _).
  split; [exact H1|exact H2].
Defined.

(** X15: a notification frame is counted before the desktop alert is
    attempted: when [new Notification] throws, [unread] has been
    incremented all the same, no alert exists, the failure is logged as a
    parse failure, and the channel and timers are untouched. *)
Theorem alert_failure_still_counts (msg data : JSValue) (now : Z) (w : World) :
  is_string (prop msg "type") "notification" = true ->
  prop msg "data" = Some data ->
  truthy (Some data) = true ->
  permission (platform w) = granted ->
  notification_throws (platform w) = true ->
  unread (hook (onmessage (Some msg) now w)) = unread (hook w) + 1 /\
  alerts (platform (onmessage (Some msg) now w)) = alerts (platform w) /\
  sockets (platform (onmessage (Some msg) now w)) = sockets (platform w) /\
  timeouts (platform (onmessage (Some msg) now w)) = timeouts (platform w) /\
  console (platform (onmessage (Some msg) now w)) =
    console (platform w) ++
    [LogRaw; LogParsed; LogNotification; ErrParse; ErrRawData].
Proof.
  intros Ht Hd Htr Hp Hthrow. unfold onmessage, onmessage_try.
  destruct msg; try discriminate Ht.
  rewrite Ht, Hd, Htr. wsimpl. rewrite Hp, Hthrow.
  rewrite bool_decide_eq_true_2 by done. cbn [andb]. wsimpl.
  rewrite <- !app_assoc. done.
Qed.

Lemma alert_failure_still_counts_witness :
  unread (hook (onmessage (Some frame_n1) 0 (mount granted true None))) = 1 /\
  alerts (platform (onmessage (Some frame_n1) 0 (mount granted true None))) = [].
Proof.
  pose proof (alert_failure_still_counts frame_n1
                (JObj [("id", JStr "n1"); ("title", JStr "X")]) 0
                (mount granted true None)) as H.
  feed H. destruct H as (H1 & H2 & _). split; [exact H1|exact H2].
Defined.

Lemma alerts_clearInterval i w :
  alerts (platform (clearInterval i w)) = alerts (platform w).
Proof. unfold clearInterval. repeat case_match; reflexivity. Qed.

Lemma alerts_clearTimeout i w :
  alerts (platform (clearTimeout i w)) = alerts (platform w).
Proof. unfold clearTimeout. repeat case_match; reflexivity. Qed.

Lemma alerts_ws_close i w : alerts (platform (ws_close i w)) = alerts (platform w).
Proof. unfold ws_close. repeat case_match; reflexivity. Qed.

#[local] Hint Rewrite alerts_clearInterval alerts_clearTimeout alerts_ws_close
  : frame.

Lemma alerts_cleanup w : alerts (platform (cleanup w)) = alerts (platform w).
Proof. unfold cleanup. hook_crush; reflexivity. Qed.

Lemma alerts_connect a c w : alerts (platform (connect a c w)) = alerts (platform w).
Proof.
  unfold connect. hook_crush; rewrite ?alerts_cleanup; reflexivity.
Qed.

Lemma alerts_send p w : alerts (platform (send p w)) = alerts (platform w).
Proof. unfold send. hook_crush; reflexivity. Qed.

Lemma alerts_onopen s w : alerts (platform (onopen s w)) = alerts (platform w).
Proof. unfold onopen, startHeartbeat. hook_crush; reflexivity. Qed.

Lemma alerts_onclose a c w : alerts (platform (onclose a c w)) = alerts (platform w).
Proof. unfold onclose. hook_crush; reflexivity. Qed.

Lemma alerts_heartbeat_tick s now w :
  alerts (platform (heartbeat_tick s now w)) = alerts (platform w).
Proof. unfold heartbeat_tick. hook_crush; reflexivity. Qed.

(** What one frame does to the alerts. *)
Lemma alerts_onmessage parsed now w :
  alerts (platform (onmessage parsed now w)) = alerts (platform w) \/
  exists msg data,
    parsed = Some msg /\
    is_string (prop msg "type") "notification" = true /\
    permission (platform w) = granted /\
    prop msg "data" = Some data /\
    alerts (platform (onmessage parsed now w)) =
      alerts (platform w) ++
      [mkAlert (or_else (prop data "title") (JStr "New Notification"))
               (or_else (prop data "message") (JStr "You have a new notification"))
               (or_else (prop data "id") (JStr (pretty now)))
               "/favicon.ico"].
Proof.
  unfold onmessage, onmessage_try.
  destruct parsed as [msg|]; [|by left].
  destruct (is_string (prop msg "type") "notification") eqn:Ht.
  2:{ left. destruct msg; cbn [prop is_string] in *; rewrite ?Ht;
      hook_crush; simplify_eq; hook_crush; done. }
  destruct msg; try discriminate Ht. wsimpl.
  destruct (bool_decide (permission (platform w) = granted)) eqn:Hp;
    cbn [andb]; [|by left].
  apply bool_decide_eq_true in Hp.
  destruct (truthy (prop (JObj fields) "data")) eqn:Htr; [|by left].
  destruct (prop (JObj fields) "data") as [data|] eqn:Hd; [|by left].
  destruct (notification_throws (platform w)); wsimpl; [by left|].
  right. exists (JObj fields), data. done.
Qed.

(** X16: desktop alerts are raised only by notification frames and only
    while the permission is [granted], one per frame at most; the alert
    carries [data.id] as its tag when that is truthy, so two frames with
    the same id raise alerts with the same tag. *)
Theorem alerts_only_when_granted (e : Event) (w w' : World) :
  step e w = Some w' ->
  alerts (platform w') = alerts (platform w) \/
  exists a,
    alerts (platform w') = alerts (platform w) ++ [a] /\
    is_notification_frame e = true /\
    permission (platform w) = granted /\
    alert_icon a = "/favicon.ico" /\
    forall s msg now data id,
      e = SockMessage s (Some msg) now ->
      prop msg "data" = Some data -> prop data "id" = Some id ->
      truthy (Some id) = true -> alert_tag a = id.
Proof.
  intros H. destruct e; cbn [step] in H; step_cases H.
  all: unfold connection_effect, handleVisibilityChange, onerror, resetUnread.
  all: repeat case_match.
  all: rewrite ?alerts_connect, ?alerts_cleanup, ?alerts_send, ?alerts_onopen,
         ?alerts_onclose, ?alerts_heartbeat_tick; wsimpl; auto.
  destruct (alerts_onmessage parsed now w)
    as [->|(msg & data & -> & Ht & Hp & Hd & ->)]; [by left|].
  right. eexists. split; [done|]. cbn [is_notification_frame alert_icon alert_tag].
  do 3 (split; [done|]).
  intros s' msg' now' data' id [= <- <- <-] Hd' Hid Htr.
  rewrite Hd in Hd'. simplify_eq. unfold or_else. by rewrite Hid, Htr.
Qed.

Lemma alerts_only_when_granted_witness :
  alerts (platform (after [Connect alice false; SockOpen 0;
                           SockMessage 0 (Some frame_n1) 5]
                      (mount denied false None))) = [] /\
  alert_tag <$>
    alerts (platform (after [Connect alice false; SockOpen 0;
                             SockMessage 0 (Some frame_n1) 5;
                             SockMessage 0 (Some frame_n1) 6] page))
  = [JStr "n1"; JStr "n1"].
Proof.
  pose proof (alerts_only_when_granted (SockMessage 0 (Some frame_n1) 5)
                (after [Connect alice false; SockOpen 0] (mount denied false None))
                (after [Connect alice false; SockOpen 0;
                        SockMessage 0 (Some frame_n1) 5] (mount denied false None)))
    as H.
  feed H. destruct H as [H|(a & _ & _ & Hp & _)].
  - split; [exact H|vm_compute; reflexivity].
  - exfalso. vm_compute in Hp. discriminate Hp.
Defined.

(** ** Opening and closing *)

(** X17: a clean close is never retried: the status becomes
    [disconnected], the handle and the heartbeat are dropped, no timeout
    is scheduled and the retry counter is left as it is. *)
Theorem clean_close_not_retried (s : nat) (w w' : World) :
  step (SockClose s true) w = Some w' ->
  status (hook w') = disconnected /\
  wsRef (hook w') = None /\
  heartbeatRef (hook w') = None /\
  isConnectingRef (hook w') = false /\
  retriesRef (hook w') = retriesRef (hook w) /\
  retryRef (hook w') = retryRef (hook w) /\
  timeouts (platform w') = timeouts (platform w) /\
  ready_state_of s w' = Some CLOSED.
Proof.
  intros H. cbn [step] in H.
  destruct (sockets (platform w) !! s) as [ws|] eqn:Hs; [|done].
  destruct (ws_close_fired ws); [done|]. simplify_eq.
  unfold ready_state_of. rewrite sockets_onclose. wsimpl.
  rewrite list_lookup_insert_eq by (eapply lookup_lt_Some; eauto).
  unfold onclose. cbn [negb andb]. hook_crush; done.
Qed.

Lemma clean_close_not_retried_witness :
  status (hook (after [Connect alice false; SockOpen 0; Cleanup; SockClose 0 true]
                  page)) = disconnected /\
  timeouts (platform (after [Connect alice false; SockOpen 0; Cleanup;
                             SockClose 0 true] page)) = [].
Proof.
  pose proof (clean_close_not_retried 0
                (after [Connect alice false; SockOpen 0; Cleanup] page)
                (after [Connect alice false; SockOpen 0; Cleanup; SockClose 0 true]
                   page)) as H.
  feed H. destruct H as (H1 & _ & _ & _ & _ & _ & H2 & _).
  split; [exact H1|]. rewrite H2. vm_compute; reflexivity.
Defined.

(** X18: when a socket opens, the status becomes [connected], the retry
    counter 0 and the flag false; a new interval, bound to that socket and
    held by [heartbeatRef], starts ticking, and each of its ticks writes
    one ping to that socket. *)
Theorem open_starts_heartbeat (s : nat) (now : Z) (w w' : World) :
  step (SockOpen s) w = Some w' ->
  status (hook w') = connected /\
  retriesRef (hook w') = 0 /\
  isConnectingRef (hook w') = false /\
  wsRef (hook w') = wsRef (hook w) /\
  ready_state_of s w' = Some OPEN /\
  heartbeatRef (hook w') = Some (length (intervals (platform w))) /\
  intervals (platform w') !! length (intervals (platform w))
    = Some (mkInterval s true) /\
  exists w'',
    step (HeartbeatTick (length (intervals (platform w))) now) w' = Some w'' /\
    sent (platform w'') = sent (platform w') ++ [(s, Ping now)] /\
    hook w'' = hook w'.
Proof.
  intros H. cbn [step] in H.
  destruct (sockets (platform w) !! s) as [ws|] eqn:Hs; [|done].
  destruct (bool_decide (readyState ws = CONNECTING)); [|done]. simplify_eq.
  set (W := set_sockets (<[s:=set_ready OPEN ws]> (sockets (platform w))) w).
  destruct (hb_view_inv _ _ _ (hb_view_onopen s W)) as [Hr Hi].
  assert (length
            match heartbeatRef (hook W) with
            | Some h => intervals (platform (clearInterval h W))
            | None => intervals (platform W)
            end = length (intervals (platform w))) as Hlen.
  { destruct (heartbeatRef (hook W)); [|done].
    rewrite intervals_clearInterval. subst W. wsimpl.
    case_match; rewrite ?length_insert; done. }
  assert (ready_state_of s (onopen s W) = Some OPEN) as Ho.
  { unfold ready_state_of. rewrite sockets_onopen. subst W. wsimpl.
    by rewrite list_lookup_insert_eq by (eapply lookup_lt_Some; eauto). }
  do 4 (split; [unfold onopen, startHeartbeat; hook_crush; done|]).
  split; [exact Ho|].
  split; [by rewrite Hr, Hlen|].
  split; [by rewrite Hi, <- Hlen, list_lookup_middle|].
  exists (heartbeat_tick s now (onopen s W)).
  cbn [step]. rewrite Hi. rewrite <- Hlen. rewrite list_lookup_middle by done.
  cbn [iv_active iv_ws]. split; [done|].
  unfold heartbeat_tick, is_open. rewrite Ho, bool_decide_eq_true_2 by done.
  wsimpl. done.
Qed.

Lemma open_starts_heartbeat_witness :
  status (hook (after [Connect alice false; SockOpen 0] page)) = connected /\
  sent (platform (after [Connect alice false; SockOpen 0; HeartbeatTick 0 15000]
                    page)) = [(0%nat, Ping 15000)].
Proof.
  pose proof (open_starts_heartbeat 0 15000
                (after [Connect alice false] page)
                (after [Connect alice false; SockOpen 0] page)) as H.
  feed H. destruct H as (H1 & _).
  split; [exact H1|vm_compute; reflexivity].
Defined.

(** ** The bell of the navigation bar *)

(** X19: while the bar renders its authenticated branch
    ([isAuthenticated && user]), in every reachable state of the hook the
    bell shows a badge exactly when [unread] is not 0, clicking the bell
    ([resetUnread]) hides it, and a count above 99 is shown as [99+]; in
    the other branch no badge is rendered, whatever [unread] is. *)
Theorem badge_shown_iff_unread (a : Auth) (w : World) :
  reachable w ->
  (still_authenticated a = true ->
   (badge a (unread (hook w)) = None <-> unread (hook w) = 0) /\
   badge a (unread (hook (resetUnread w))) = None /\
   (99 < unread (hook w) -> badge a (unread (hook w)) = Some "99+")) /\
  (still_authenticated a = false -> badge a (unread (hook w)) = None).
Proof.
  intros (perm & throws & env & evs & Hrun).
  assert (0 <= unread (hook w)) as Hu.
  { eapply run_unread_nonneg; [|exact Hrun]. cbn. lia. }
  unfold badge. split; [|by intros ->].
  intros ->. split; [|split; [done|]].
  - destruct (Z.ltb_spec 0 (unread (hook w))); split; try done; lia.
  - intros H. destruct (Z.ltb_spec 0 (unread (hook w))); [|lia].
    destruct (Z.ltb_spec 99 (unread (hook w))); [done|lia].
Qed.

(** One notification, then the bell is clicked; and the same count after
    a logout. *)
Lemma badge_shown_iff_unread_witness :
  badge alice
    (unread (hook (resetUnread
                     (after [Connect alice false; SockOpen 0;
                             SockMessage 0 (Some frame_n1) 5] page)))) = None /\
  badge (mkAuth false None)
    (unread (hook (after [Connect alice false; SockOpen 0;
                          SockMessage 0 (Some frame_n1) 5] page))) = None.
Proof.
  assert (reachable (after [Connect alice false; SockOpen 0;
                            SockMessage 0 (Some frame_n1) 5] page)) as Hr.
  { exists granted, false, None,
      [Connect alice false; SockOpen 0; SockMessage 0 (Some frame_n1) 5].
    vm_compute; reflexivity. }
  destruct (badge_shown_iff_unread alice _ Hr) as (H1 & _).
  feed H1. destruct H1 as (_ & H1 & _).
  destruct (badge_shown_iff_unread (mkAuth false None) _ Hr) as (_ & H2).
  feed H2. split; [exact H1|exact H2].
Defined.

(** ** The URL of the sockets *)

#[local] Hint Rewrite env_clearInterval env_clearTimeout env_ws_close : frame.

Lemma env_cleanup w :
  NEXT_PUBLIC_WEBSOCKET_URL (platform (cleanup w)) =
  NEXT_PUBLIC_WEBSOCKET_URL (platform w).
Proof. unfold cleanup. hook_crush; reflexivity. Qed.

Lemma env_connect a c w :
  NEXT_PUBLIC_WEBSOCKET_URL (platform (connect a c w)) =
  NEXT_PUBLIC_WEBSOCKET_URL (platform w).
Proof. unfold connect. hook_crush; rewrite ?env_cleanup; reflexivity. Qed.

Lemma env_send p w :
  NEXT_PUBLIC_WEBSOCKET_URL (platform (send p w)) =
  NEXT_PUBLIC_WEBSOCKET_URL (platform w).
Proof. unfold send. hook_crush; reflexivity. Qed.

Lemma env_onopen s w :
  NEXT_PUBLIC_WEBSOCKET_URL (platform (onopen s w)) =
  NEXT_PUBLIC_WEBSOCKET_URL (platform w).
Proof. unfold onopen, startHeartbeat. hook_crush; reflexivity. Qed.

Lemma env_onmessage parsed now w :
  NEXT_PUBLIC_WEBSOCKET_URL (platform (onmessage parsed now w)) =
  NEXT_PUBLIC_WEBSOCKET_URL (platform w).
Proof.
  unfold onmessage, onmessage_try.
  hook_crush; simplify_eq; hook_crush; reflexivity.
Qed.

Lemma env_onclose a c w :
  NEXT_PUBLIC_WEBSOCKET_URL (platform (onclose a c w)) =
  NEXT_PUBLIC_WEBSOCKET_URL (platform w).
Proof. unfold onclose. hook_crush; reflexivity. Qed.

Lemma env_heartbeat_tick s now w :
  NEXT_PUBLIC_WEBSOCKET_URL (platform (heartbeat_tick s now w)) =
  NEXT_PUBLIC_WEBSOCKET_URL (platform w).
Proof. unfold heartbeat_tick. hook_crush; reflexivity. Qed.

Lemma step_env e w w' :
  step e w = Some w' ->
  NEXT_PUBLIC_WEBSOCKET_URL (platform w') = NEXT_PUBLIC_WEBSOCKET_URL (platform w).
Proof.
  intros H. destruct e; cbn [step] in H; step_cases H.
  all: unfold connection_effect, handleVisibilityChange, onerror, resetUnread.
  all: repeat case_match.
  all: rewrite ?env_connect, ?env_cleanup, ?env_send, ?env_onopen,
         ?env_onmessage, ?env_onclose, ?env_heartbeat_tick; reflexivity.
Qed.









